(** * The registry builder of audion-plugins

    A shallow embedding of [scripts/build-registry.js]: the script that
    searches GitHub for repositories carrying the [audion-plugins] topic,
    fetches and validates each repository's [plugin.json] and writes the
    aggregate [registry.json].

    JavaScript values are an inductive type, objects are finite maps from
    property names to values, numbers are IEEE doubles, and a string is kept
    as its UTF-8 encoding.  The asynchronous functions are sequential
    ([await] at every call), so they are embedded in a state-and-exception
    monad over an explicit world: the requests sent so far, the console, and
    the file system.  A promise that never settles is a third way for a
    computation to end. *)

From Stdlib Require Import ZArith String List.
From Stdlib Require Import Floats.PrimFloat Floats.SpecFloat Floats.FloatOps.
From stdpp Require Import base option gmap strings list pretty.

#[local] Set Warnings "-register-all".
#[local] Open Scope string_scope.

(** ** JavaScript values *)

(** What [JSON.parse] can return, plus [undefined], which reading a
    missing property yields. *)
Inductive value : Type :=
  | VUndefined
  | VNull
  | VBool (b : bool)
  | VNum (x : float)
  | VStr (s : string)
  | VArr (elems : list value)
  | VObj (props : gmap string value).

(** [!v] is [negb (truthy v)]: the falsy values are [undefined], [null],
    [false], [+0], [-0], [NaN] and the empty string.  Every array and every
    object is truthy, the empty ones included. *)
Definition truthy (v : value) : bool :=
  match v with
  | VUndefined | VNull => false
  | VBool b => b
  | VNum x => negb (PrimFloat.eqb x 0%float) && PrimFloat.eqb x x
  | VStr s => negb (String.eqb s "")
  | VArr _ | VObj _ => true
  end.

Definition typeof (v : value) : string :=
  match v with
  | VUndefined => "undefined"
  | VBool _ => "boolean"
  | VNum _ => "number"
  | VStr _ => "string"
  | VNull | VArr _ | VObj _ => "object"
  end.

Definition nullish (v : value) : bool :=
  match v with
  | VUndefined | VNull => true
  | _ => false
  end.

(** [v[k]] and [v.k] for a [v] that is neither [null] nor [undefined].  An
    object answers with its own property; the prototypes of objects, arrays
    and primitives define none of the property names this script reads, so
    everything else answers [undefined]. *)
Definition get (v : value) (k : string) : value :=
  match v with
  | VObj props => default VUndefined (props !! k)
  | _ => VUndefined
  end.

(** [a || b] and [Array.isArray]. *)
Definition or_else (a b : value) : value := if truthy a then a else b.

Definition isArray (v : value) : bool :=
  match v with
  | VArr _ => true
  | _ => false
  end.

(** [list.includes(v)] for an array literal of strings: SameValueZero only
    relates a string to an equal string. *)
Definition includes (l : list string) (v : value) : bool :=
  match v with
  | VStr s => existsb (String.eqb s) l
  | _ => false
  end.

(** ** Exceptions and results *)

(** A thrown value: an [Error] object with its [name] and [message]. *)
Record exn : Type := { exn_name : string; message : string }.

Definition Error (msg : string) : exn := {| exn_name := "Error"; message := msg |}.
Definition TypeError (msg : string) : exn :=
  {| exn_name := "TypeError"; message := msg |}.

(** How a computation ends: it returns, it throws, or it waits on a
    promise that never settles.  Synchronous code never ends the third
    way. *)
Inductive result (A : Type) : Type :=
  | Ok (a : A)
  | Throw (e : exn)
  | Pending.
Arguments Ok {A} a.
Arguments Throw {A} e.
Arguments Pending {A}.

Definition then_ {A B} (r : result A) (k : A -> result B) : result B :=
  match r with
  | Ok a => k a
  | Throw e => Throw e
  | Pending => Pending
  end.

Declare Scope result_scope.
Delimit Scope result_scope with result.
Notation "x <~ r ; k" := (then_ r (fun x => k))
  (at level 100, r at next level, right associativity) : result_scope.

(** ** The registry document *)

(** The [manifest] sub-object of an entry.  Optional fields the plugin's
    manifest does not define hold [undefined]. *)
Module Manifest.
Record t : Type := {
  name : value;
  version : value;
  author : value;
  description : value;
  repo : value;
  manifest_url : string;
  type : value;
  entry : value;
  permissions : value;
  ui_slots : value;
  icon : value;
  homepage : value;
  category : value;
  tags : value;
  license : value
}.
End Manifest.

Module Plugin.
Record t : Type := {
  manifest : Manifest.t;
  curated : bool;
  verified : bool;
  repo : value;
  manifest_url : string;
  stars : value;
  downloads : Z;
  lastUpdated : value
}.
End Plugin.

Module Registry.
Record t : Type := {
  version : string;
  updated_at : string;
  plugins : list Plugin.t
}.
End Registry.

(** ** The world the script runs in *)

(** The [options] of [https.request]; a header whose value is [undefined]
    holds [None]. *)
Record options : Type := {
  hostname : string;
  path : string;
  headers : list (string * option string)
}.

(** The text of a response body, as [JSON.parse] sees it: text it parses,
    given by the value it returns, or text on which it throws. *)
Inductive body : Type :=
  | Json (v : value)
  | Text (raw : string).

(** What a request that was sent comes to: the ['end'] event of a response;
    the ['error'] event of the request; or neither, when the response breaks
    off after its headers or never ends (nothing listens to the events of
    the response but ['data'] and ['end'], and no timeout is set). *)
Inductive outcome : Type :=
  | Reply (statusCode : Z) (content : body)
  | Failure (err : exn)
  | Stalled.

(** The calls of Node's [fs] module.  [WriteFileSync p doc] writes the text
    [JSON.stringify(doc, null, 2)] to [p]; the call records the document, its
    serialization is not modelled.  The script never calls [RenameSync]; it
    is here to express the write-then-move discipline. *)
Inductive fs_call : Type :=
  | ExistsSync (p : string)
  | MkdirSync (p : string)
  | WriteFileSync (p : string) (doc : Registry.t)
  | RenameSync (src dst : string).

(** What the script does not decide: the network (the outcome of a request,
    given the requests sent before it), the environment, the clock, where
    the script is installed, the faults of the file system, and the engine's
    [Number::toString]. *)
Record host : Type := {
  net : list options -> options -> outcome;
  GITHUB_TOKEN : option string;
  now : string;
  root : string;
  fs_fault : fs_call -> option exn;
  number_to_string : float -> string
}.

(** What the script changes: the requests sent, the lines printed, the
    directories that exist, and the calls made to [fs], all oldest first. *)
Record world : Type := {
  sent : list options;
  console : list string;
  dirs : gset string;
  fs_calls : list fs_call
}.

Definition with_sent (w : world) (o : options) : world :=
  {| sent := sent w ++ [o]; console := console w;
     dirs := dirs w; fs_calls := fs_calls w |}.
Definition with_line (w : world) (line : string) : world :=
  {| sent := sent w; console := console w ++ [line];
     dirs := dirs w; fs_calls := fs_calls w |}.
Definition with_call (w : world) (c : fs_call) : world :=
  {| sent := sent w; console := console w;
     dirs := dirs w; fs_calls := fs_calls w ++ [c] |}.
Definition with_dir (w : world) (p : string) : world :=
  {| sent := sent w; console := console w;
     dirs := {[ p ]} ∪ dirs w; fs_calls := fs_calls w |}.

(** *** The monad of the asynchronous functions *)

Definition M (A : Type) : Type := world -> result A * world.

Definition ret {A} (a : A) : M A := fun w => (Ok a, w).
Definition throw {A} (e : exn) : M A := fun w => (Throw e, w).
(** A synchronous step inside an asynchronous function. *)
Definition lift {A} (r : result A) : M A := fun w => (r, w).
Definition bind {A B} (c : M A) (k : A -> M B) : M B :=
  fun w =>
    match c w with
    | (Ok a, w') => k a w'
    | (Throw e, w') => (Throw e, w')
    | (Pending, w') => (Pending, w')
    end.
(** [try { c } catch (err) { handler }]: a [try] that waits for ever never
    reaches its [catch]. *)
Definition try_catch {A} (c : M A) (handler : exn -> M A) : M A :=
  fun w =>
    match c w with
    | (Ok a, w') => (Ok a, w')
    | (Throw e, w') => handler e w'
    | (Pending, w') => (Pending, w')
    end.

Declare Scope js_scope.
Delimit Scope js_scope with js.
Notation "x <- c ;; k" := (bind c (fun x => k))
  (at level 100, c at next level, right associativity) : js_scope.
Notation "c ;;; k" := (bind c (fun _ => k))
  (at level 100, right associativity) : js_scope.
#[local] Open Scope js_scope.

(** *** Strings *)

Definition nl : string := String (Ascii.ascii_of_nat 10) "".
Definition dq : string := String (Ascii.ascii_of_nat 34) "".

(** [String(v)], the conversion a template literal applies.  An object
    that holds a key [toString] has no callable [toString] of its own (no
    value of JSON is callable) and its [valueOf] returns the object: the
    conversion throws.  An array joins the conversions of its elements, and
    throws when one of them does. *)
Fixpoint to_string (h : host) (v : value) : result string :=
  match v with
  | VUndefined => Ok "undefined"
  | VNull => Ok "null"
  | VBool b => Ok (if b then "true" else "false")
  | VNum x => Ok (number_to_string h x)
  | VStr s => Ok s
  | VArr elems =>
      (fix join (l : list value) : result string :=
         match l with
         | [] => Ok ""
         | e :: rest =>
             match (if nullish e then Ok "" else to_string h e) with
             | Ok s =>
                 match rest with
                 | [] => Ok s
                 | _ :: _ =>
                     match join rest with
                     | Ok t => Ok (s ++ "," ++ t)
                     | Throw err => Throw err
                     | Pending => Pending
                     end
                 end
             | Throw err => Throw err
             | Pending => Pending
             end
         end) elems
  | VObj props =>
      match props !! "toString" with
      | Some _ => Throw (TypeError "Cannot convert object to primitive value")
      | None => Ok "[object Object]"
      end
  end.

(** ** The manifest validator *)

Definition REQUIRED_FIELDS : list string :=
  ["name"; "version"; "author"; "type"; "entry"; "permissions"].
Definition VALID_TYPES : list string := ["js"; "wasm"].
Definition VALID_CATEGORIES : list string :=
  ["audio"; "ui"; "lyrics"; "library"; "utility"].

(** The object [validateManifest] returns: [{ valid: true }] or
    [{ valid: false, error }], with the message of the error. *)
Record validation : Type := { valid : bool; error : option string }.

Definition Accepted : validation := {| valid := true; error := None |}.
Definition Rejected (reason : string) : validation :=
  {| valid := false; error := Some reason |}.

(** The five messages; [shown] is the offending value as the template
    literal converts it. *)
Definition MalformedDocument : string := "Invalid JSON".
Definition MissingField (field : string) : string :=
  "Missing required field: " ++ field.
Definition InvalidType (shown : string) : string := "Invalid type: " ++ shown.
Definition PermissionsNotArray : string := "Permissions must be an array".
Definition InvalidCategory (shown : string) : string :=
  "Invalid category: " ++ shown.

(** The loop over [REQUIRED_FIELDS]: the first field whose value is falsy. *)
Fixpoint first_missing (manifest : value) (fields : list string) : option string :=
  match fields with
  | [] => None
  | field :: rest =>
      if negb (truthy (get manifest field)) then Some field
      else first_missing manifest rest
  end.

(** The messages of the third and fifth tests are built from the value of
    the manifest, inside the function: it throws when the value cannot be
    converted. *)
Definition validateManifest (h : host) (manifest : value) : result validation :=
  (if negb (truthy manifest) || negb (String.eqb (typeof manifest) "object")
   then Ok (Rejected MalformedDocument)
   else
     match first_missing manifest REQUIRED_FIELDS with
     | Some field => Ok (Rejected (MissingField field))
     | None =>
         if negb (includes VALID_TYPES (get manifest "type"))
         then shown <~ to_string h (get manifest "type") ;
              Ok (Rejected (InvalidType shown))
         else if negb (isArray (get manifest "permissions"))
         then Ok (Rejected PermissionsNotArray)
         else if truthy (get manifest "category")
                 && negb (includes VALID_CATEGORIES (get manifest "category"))
         then shown <~ to_string h (get manifest "category") ;
              Ok (Rejected (InvalidCategory shown))
         else Ok Accepted
     end)%result.

(** A document that passes the first test of [validateManifest]: truthy and
    of [typeof] ['object'], that is an object or an array. *)
Definition mapping_like (v : value) : bool :=
  truthy v && String.eqb (typeof v) "object".

(** ** What [https.request] accepts *)

(** The characters of a string all lie in U+0000..U+00FF and those below
    U+0080 pass [low].  In UTF-8 the characters U+0080..U+00FF are the two
    byte sequences that begin with C2 or C3. *)
Fixpoint latin1 (low : N -> bool) (s : string) : bool :=
  match s with
  | "" => true
  | String c rest =>
      let b := Ascii.N_of_ascii c in
      if (b <? 128)%N then low b && latin1 low rest
      else if (b =? 194)%N || (b =? 195)%N then
        match rest with
        | String c' rest' =>
            let b' := Ascii.N_of_ascii c' in
            (128 <=? b')%N && (b' <=? 191)%N && latin1 low rest'
        | "" => false
        end
      else false
  end.

(** No character outside U+0021..U+00FF: Node's test of a request path. *)
Definition path_ok (p : string) : bool := latin1 (fun b => (33 <=? b)%N) p.

(** No character outside tab, U+0020..U+007E and U+0080..U+00FF: Node's
    test of a header value. *)
Definition header_value_ok (v : string) : bool :=
  latin1 (fun b => (b =? 9)%N || ((32 <=? b)%N && (b <=? 126)%N)) v.

Fixpoint header_refusal (hs : list (string * option string)) : option exn :=
  match hs with
  | [] => None
  | (name, None) :: _ =>
      Some (TypeError ("Invalid value " ++ dq ++ "undefined" ++ dq
                       ++ " for header " ++ dq ++ name ++ dq))
  | (name, Some v) :: rest =>
      if header_value_ok v then header_refusal rest
      else Some (TypeError ("Invalid character in header content ["
                            ++ dq ++ name ++ dq ++ "]"))
  end.

(** What [https.request] throws before it sends anything: on a path with a
    character it does not accept, then on the first header it does not
    accept. *)
Definition refusal (o : options) : option exn :=
  if path_ok (path o) then header_refusal (headers o)
  else Some (TypeError "Request path contains unescaped characters").

(** The characters of a string, each as a string: the items of
    [for ... of] on a string.  [width] is the number of bytes that follow
    the first byte of a character of UTF-8. *)
Definition width (c : Ascii.ascii) : nat :=
  let b := Ascii.N_of_ascii c in
  if (b <? 192)%N then 0
  else if (b <? 224)%N then 1
  else if (b <? 240)%N then 2
  else 3.

Fixpoint code_points_from (s : string) (more : nat) (current : string) : list string :=
  match s with
  | "" => if String.eqb current "" then [] else [current]
  | String c rest =>
      match more with
      | S more' => code_points_from rest more' (current ++ String c "")
      | O =>
          (if String.eqb current "" then [] else [current])
          ++ code_points_from rest (width c) (String c "")
      end
  end%list.

Definition code_points (s : string) : list string := code_points_from s 0 "".

(** ** The script *)

Definition GITHUB_API : string := "api.github.com".
Definition TOPIC : string := "audion-plugins".

(** [path.join(__dirname, '..', 'registry', 'main', 'registry.json')], and
    [path.dirname] of it, with [root] for [path.join(__dirname, '..')]. *)
Definition OUTPUT_DIR (h : host) : string := root h ++ "/registry/main".
Definition OUTPUT_PATH (h : host) : string := OUTPUT_DIR h ++ "/registry.json".

Definition log (line : string) : M unit := fun w => (Ok tt, with_line w line).

(** The response object [{ status, data }] that [httpsGet] resolves with. *)
Record response : Type := { status : Z; data : value }.

(** [try { JSON.parse(data) } catch { data }] *)
Definition decode (b : body) : value :=
  match b with
  | Json v => v
  | Text raw => VStr raw
  end.

(** One request, no more.  [https.request] may throw inside the executor
    of the promise, which rejects with nothing sent.  Otherwise the promise
    resolves at the ['end'] of the response, whatever its status, rejects at
    the ['error'] of the request, and stays pending when neither comes. *)
Definition httpsGet (h : host) (o : options) : M response :=
  fun w =>
    match refusal o with
    | Some err => (Throw err, w)
    | None =>
        match net h (sent w) o with
        | Reply statusCode content =>
            (Ok {| status := statusCode; data := decode content |}, with_sent w o)
        | Failure err => (Throw err, with_sent w o)
        | Stalled => (Pending, with_sent w o)
        end
    end.

(** What reading a property of [null] or [undefined] throws. *)
Definition null_read (v : value) (k : string) : exn :=
  TypeError ("Cannot read properties of "
             ++ (match v with VNull => "null" | _ => "undefined" end)
             ++ " (reading '" ++ k ++ "')").

(** [v.k] where [v] may be [null] or [undefined]. *)
Definition get_prop (v : value) (k : string) : M value :=
  if nullish v then throw (null_read v k) else ret (get v k).

(** [v?.k] *)
Definition get_optional (v : value) (k : string) : value :=
  if nullish v then VUndefined else get v k.

Definition search_path : string :=
  "/search/repositories?q=topic:" ++ TOPIC
  ++ "&sort=stars&order=desc&per_page=100".

Definition search_options (h : host) : options :=
  {| hostname := GITHUB_API;
     path := search_path;
     headers :=
       [ ("User-Agent", Some "Audion-Registry-Builder");
         ("Accept", Some "application/vnd.github.v3+json");
         ("Authorization",
          match GITHUB_TOKEN h with
          | Some token =>
              if negb (String.eqb token "") then Some ("token " ++ token)
              else None
          | None => None
          end) ] |}.

Definition searchRepos (h : host) : M value :=
  log ("Searching GitHub for repos with topic: " ++ TOPIC) ;;;
  response <- httpsGet h (search_options h) ;;
  if negb (Z.eqb (status response) 200)
  then throw (Error ("GitHub API error: " ++ pretty (status response)))
  else
    total_count <- get_prop (data response) "total_count" ;;
    shown <- lift (to_string h total_count) ;;
    log ("Found " ++ shown ++ " repos") ;;;
    items <- get_prop (data response) "items" ;;
    ret (or_else items (VArr [])).

(** [`/${repo.full_name}/${repo.default_branch}/plugin.json`], which the
    script writes three times (lines 65, 142 and 156). *)
Definition manifest_path (full_name default_branch : string) : string :=
  "/" ++ full_name ++ "/" ++ default_branch ++ "/plugin.json".

Definition repo_path (h : host) (repo : value) : M string :=
  full_name <- get_prop repo "full_name" ;;
  a <- lift (to_string h full_name) ;;
  default_branch <- get_prop repo "default_branch" ;;
  b <- lift (to_string h default_branch) ;;
  ret (manifest_path a b).

Definition manifest_options (p : string) : options :=
  {| hostname := "raw.githubusercontent.com";
     path := p;
     headers := [ ("User-Agent", Some "Audion-Registry-Builder") ] |}.

Definition fetchPluginManifest (h : host) (repo : value) : M value :=
  p <- repo_path h repo ;;
  response <- httpsGet h (manifest_options p) ;;
  if negb (Z.eqb (status response) 200)
  then ret VNull
  else ret (data response).

(** The entry pushed for an accepted manifest; [url] is the value of the
    template literal of [manifest_url].  Where the entry is built, [repo] has
    answered [repo.full_name] and [manifest] is an object, so no read below
    can throw. *)
Definition plugin_entry (url : string) (repo manifest : value) : Plugin.t :=
  {| Plugin.manifest :=
       {| Manifest.name := get manifest "name";
          Manifest.version := get manifest "version";
          Manifest.author := get manifest "author";
          Manifest.description := or_else (get manifest "description") (VStr "");
          Manifest.repo := get repo "html_url";
          Manifest.manifest_url := url;
          Manifest.type := get manifest "type";
          Manifest.entry := get manifest "entry";
          Manifest.permissions := get manifest "permissions";
          Manifest.ui_slots := get manifest "ui_slots";
          Manifest.icon := get manifest "icon";
          Manifest.homepage :=
            or_else (get manifest "homepage") (get repo "html_url");
          Manifest.category := get manifest "category";
          Manifest.tags := get manifest "tags";
          Manifest.license :=
            or_else (get manifest "license")
                    (get_optional (get repo "license") "spdx_id") |};
     Plugin.curated := false;
     Plugin.verified := false;
     Plugin.repo := get repo "html_url";
     Plugin.manifest_url := url;
     Plugin.stars := get repo "stargazers_count";
     Plugin.downloads := 0;
     Plugin.lastUpdated := get repo "updated_at" |}.

Definition raw_url (p : string) : string :=
  "https://raw.githubusercontent.com" ++ p.

(** [validation.error] in a template literal. *)
Definition error_text (v : validation) : string :=
  match error v with
  | Some reason => reason
  | None => "undefined"
  end.

(** The block of the [try] in the loop of [buildRegistry]; [plugins] is the
    array as it is when the turn begins, the result is the array when it
    ends. *)
Definition inspect (h : host) (plugins : list Plugin.t) (repo : value)
  : M (list Plugin.t) :=
  manifest <- fetchPluginManifest h repo ;;
  if negb (truthy manifest)
  then log "  ❌ No plugin.json found" ;;; ret plugins
  else
    validation <- lift (validateManifest h manifest) ;;
    if negb (valid validation)
    then log ("  ❌ Invalid manifest: " ++ error_text validation) ;;; ret plugins
    else
      name <- get_prop manifest "name" ;;
      shown <- lift (to_string h name) ;;
      log ("  ✅ Valid plugin: " ++ shown) ;;;
      p <- repo_path h repo ;;
      ret (plugins ++ [plugin_entry (raw_url p) repo manifest])%list.

(** One turn of the loop.  The line that announces the repository is
    outside the [try]. *)
Definition process_repo (h : host) (plugins : list Plugin.t) (repo : value)
  : M (list Plugin.t) :=
  full_name <- get_prop repo "full_name" ;;
  shown <- lift (to_string h full_name) ;;
  log (nl ++ "Checking: " ++ shown) ;;;
  try_catch
    (inspect h plugins repo)
    (fun err => log ("  ❌ Error: " ++ message err) ;;; ret plugins).

Fixpoint process_repos (h : host) (plugins : list Plugin.t) (repos : list value)
  : M (list Plugin.t) :=
  match repos with
  | [] => ret plugins
  | repo :: rest =>
      plugins' <- process_repo h plugins repo ;;
      process_repos h plugins' rest
  end.

(** What [for (const repo of repos)] iterates over: the elements of an
    array, the characters of a string; anything else is not iterable. *)
Definition for_of (repos : value) : M (list value) :=
  match repos with
  | VArr elems => ret elems
  | VStr s => ret (List.map VStr (code_points s))
  | _ => throw (TypeError "repos is not iterable")
  end.

Definition fs_do (h : host) (c : fs_call) : M unit :=
  fun w =>
    match fs_fault h c with
    | Some err => (Throw err, with_call w c)
    | None => (Ok tt, with_call w c)
    end.

Definition existsSync (p : string) : M bool :=
  fun w => (Ok (bool_decide (p ∈ dirs w)), with_call w (ExistsSync p)).

(** [fs.mkdirSync(p, { recursive: true })] *)
Definition mkdirSync (h : host) (p : string) : M unit :=
  fs_do h (MkdirSync p) ;;; (fun w => (Ok tt, with_dir w p)).

Definition writeFileSync (h : host) (p : string) (doc : Registry.t) : M unit :=
  fs_do h (WriteFileSync p doc).

Definition buildRegistry (h : host) : M Registry.t :=
  repos <- searchRepos h ;;
  items <- for_of repos ;;
  plugins <- process_repos h [] items ;;
  let registry :=
    {| Registry.version := "1.0.0";
       Registry.updated_at := now h;
       Registry.plugins := plugins |} in
  present <- existsSync (OUTPUT_DIR h) ;;
  (if negb present then mkdirSync h (OUTPUT_DIR h) else ret tt) ;;;
  writeFileSync h (OUTPUT_PATH h) registry ;;;
  log (nl ++ "✅ Registry built with " ++ pretty (List.length plugins) ++ " plugins") ;;;
  log ("   Written to: " ++ OUTPUT_PATH h) ;;;
  ret registry.

(** [buildRegistry().catch(err => { console.error(...); process.exit(1) })]:
    how the run of the script ends.  When [buildRegistry] throws, the
    [catch] prints the error (the line keeps its name and message) and calls
    [process.exit(1)]; when it returns, nothing is left to run and the
    process ends with code 0; while its promise stays pending, the script
    runs nothing more and sets no exit code. *)
Definition main (h : host) : world -> option Z * world :=
  fun w =>
    match buildRegistry h w with
    | (Ok _, w') => (Some 0%Z, w')
    | (Throw err, w') =>
        (Some 1%Z, with_line w' ("Failed to build registry: " ++ exn_name err
                                 ++ ": " ++ message err))
    | (Pending, w') => (None, w')
    end.

Definition init : world :=
  {| sent := []; console := []; dirs := ∅; fs_calls := [] |}.

(** ** What a reader of the output location can find *)

(** A file as a reader finds it: holding the whole text of a document, or
    opened for writing and still short of it. *)
Inductive file : Type :=
  | Partial
  | Whole (doc : Registry.t).

(** The successive contents of the file system during one call, oldest
    first.  [fs.writeFileSync] opens its target with flag ['w'], which
    truncates it, and then writes the data; [fs.renameSync] replaces its
    destination in one step. *)
Definition fs_step (c : fs_call) (files : gmap string file) : list (gmap string file) :=
  match c with
  | ExistsSync _ | MkdirSync _ => []
  | WriteFileSync p doc => [ <[p := Partial]> files; <[p := Whole doc]> files ]
  | RenameSync src dst =>
      match files !! src with
      | Some f => [ <[dst := f]> (delete src files) ]
      | None => []
      end
  end.

(** The file system once the call is over. *)
Definition fs_after (c : fs_call) (files : gmap string file) : gmap string file :=
  List.last (fs_step c files) files.

(** All that a reader can find while [calls] are made, one after another. *)
Fixpoint observable (calls : list fs_call) (files : gmap string file)
  : list (gmap string file) :=
  match calls with
  | [] => []
  | c :: rest => (fs_step c files ++ observable rest (fs_after c files))%list
  end.

(** The discipline the specification asks of the writer, in its words: no
    reader ever finds a partially written document at the output location. *)
Definition never_partial (h : host) (calls : list fs_call) : Prop :=
  forall files seen,
    files !! OUTPUT_PATH h <> Some Partial ->
    In seen (observable calls files) ->
    seen !! OUTPUT_PATH h <> Some Partial.

(** The mechanism the specification names: write to a temporary location,
    then move into place. *)
Definition write_then_move (h : host) (doc : Registry.t) : list fs_call :=
  [ WriteFileSync (OUTPUT_PATH h ++ ".tmp") doc;
    RenameSync (OUTPUT_PATH h ++ ".tmp") (OUTPUT_PATH h) ].

(** ** A paginated listing, as the search endpoint serves it *)

(** Page [page] (from 1) of [all], [per_page] items a page: the [items] of
    a reply of [GET /search/repositories]. *)
Definition listing_page (all : list value) (per_page page : nat) : list value :=
  take per_page (drop ((page - 1) * per_page) all).

(** ** [Number::toString] *)

(** The decimal text of a double as ECMAScript defines it: the fewest
    digits [s] whose value [s * 10^p] still rounds to the double, the
    closest such when there are several, laid out with or without an
    exponent. *)
Module Engine.

#[local] Open Scope Z_scope.

(** [s * 10^p] and [n * 2^e], both times the same power of two and of ten
    that makes them integers. *)
Definition scaled (n e s p : Z) : Z * Z :=
  (s * 10 ^ Z.max p 0 * 2 ^ Z.max (- e) 0,
   n * 2 ^ Z.max e 0 * 10 ^ Z.max (- p) 0).

Definition digits (n : Z) : Z := Z.of_nat (String.length (pretty n)).

(** The [q] with [10^q <= m * 2^e < 10^(q+1)], for [m > 0]. *)
Definition log10_floor (m e : Z) : Z :=
  if 0 <=? e then digits (m * 2 ^ e) - 1
  else
    let t := - e in
    if 2 ^ t <=? m then digits (Z.shiftr m t) - 1
    else
      let r := (2 ^ t + m - 1) / m in
      let len := digits r in
      - (if r =? 10 ^ (len - 1) then len - 1 else len).

(** [s * 10^p] lies between [lo * 2^e] and [hi * 2^e], the ends included
    when [closed]. *)
Definition within (closed : bool) (lo hi e s p : Z) : bool :=
  let '(a, b) := scaled lo e s p in
  let '(c, d) := scaled hi e s p in
  (if closed then b <=? a else b <? a) && (if closed then c <=? d else c <? d).

(** The text of [k] digits for [m * 2^e], if there is one: of the two
    [k]-digit decimals around the double, the one that rounds to it, the
    closer of the two when both do. *)
Definition shortest_at (m e k : Z) : option (Z * Z) :=
  let p := log10_floor m e - k + 1 in
  let num := m * 2 ^ Z.max e 0 * 10 ^ Z.max (- p) 0 in
  let den := 2 ^ Z.max (- e) 0 * 10 ^ Z.max p 0 in
  let s0 := num / den in
  let s1 := s0 + 1 in
  let closed := Z.even m in
  let lo := if (m =? 2 ^ 52) && (-1074 <? e) then 4 * m - 1 else 4 * m - 2 in
  let hi := 4 * m + 2 in
  let ok0 := within closed lo hi (e - 2) s0 p && (0 <? s0) in
  let ok1 := within closed lo hi (e - 2) s1 p in
  let d0 := num - s0 * den in
  let d1 := s1 * den - num in
  let pick :=
    if ok0 && ok1 then
      if d0 <? d1 then Some s0
      else if d1 <? d0 then Some s1
      else if Z.even s0 then Some s0 else Some s1
    else if ok0 then Some s0
    else if ok1 then Some s1
    else None in
  match pick with
  | Some s => if s =? 10 ^ k then Some (10 ^ (k - 1), p + 1) else Some (s, p)
  | None => None
  end.

(** Seventeen digits always do. *)
Fixpoint shortest (fuel : nat) (m e k : Z) : Z * Z :=
  match fuel with
  | O => (m, 0)
  | S fuel' =>
      match shortest_at m e k with
      | Some sp => sp
      | None => shortest fuel' m e (k + 1)
      end
  end.

Fixpoint zeros (n : nat) : string :=
  match n with
  | O => ""
  | S n' => "0" ++ zeros n'
  end.

Definition layout (s p : Z) : string :=
  let text := pretty s in
  let k := Z.of_nat (String.length text) in
  let n := p + k in
  let before i := substring 0%nat i text in
  let after i := substring i (String.length text - i) text in
  if (k <=? n) && (n <=? 21) then text ++ zeros (Z.to_nat (n - k))
  else if (0 <? n) && (n <=? 21)
  then before (Z.to_nat n) ++ "." ++ after (Z.to_nat n)
  else if (-6 <? n) && (n <=? 0) then "0." ++ zeros (Z.to_nat (- n)) ++ text
  else
    let e := n - 1 in
    let tail := "e" ++ (if 0 <=? e then "+" else "-") ++ pretty (Z.abs e) in
    if k =? 1 then text ++ tail
    else before 1%nat ++ "." ++ after 1%nat ++ tail.

Definition Number_toString (x : float) : string :=
  match Prim2SF x with
  | S754_zero _ => "0"
  | S754_infinity sign => if sign then "-Infinity" else "Infinity"
  | S754_nan => "NaN"
  | S754_finite sign m e =>
      let '(s, p) := shortest 17 (Z.pos m) e 1 in
      (if sign then "-" else "") ++ layout s p
  end.

End Engine.

(** ** Example worlds *)

Module Examples.

Definition obj (props : list (string * value)) : value :=
  VObj (list_to_map props).

Definition repo_of (full_name : string) (stars : float) : value :=
  obj [ ("full_name", VStr full_name);
        ("default_branch", VStr "main");
        ("html_url", VStr ("https://github.com/" ++ full_name));
        ("license", obj [ ("spdx_id", VStr "MIT") ]);
        ("stargazers_count", VNum stars);
        ("updated_at", VStr "2025-01-01T00:00:00Z") ].

Definition acme : value := repo_of "acme/my-plugin" 42.
Definition ghost : value := repo_of "ghost/no-manifest" 7.

Definition acme_manifest : value :=
  obj [ ("name", VStr "My Plugin");
        ("version", VStr "1.0.0");
        ("author", VStr "Acme");
        ("type", VStr "js");
        ("entry", VStr "index.js");
        ("permissions", VArr [ VStr "player:read" ]) ].

Definition listing (total : float) (items : list value) : body :=
  Json (obj [ ("total_count", VNum total); ("items", VArr items) ]).

Definition acme_request : options :=
  manifest_options "/acme/my-plugin/main/plugin.json".
Definition ghost_request : options :=
  manifest_options "/ghost/no-manifest/main/plugin.json".
Definition acme_url : string :=
  "https://raw.githubusercontent.com/acme/my-plugin/main/plugin.json".

Definition is_search (o : options) : bool :=
  String.eqb (hostname o) GITHUB_API.

Definition host_of (network : list options -> options -> outcome) : host :=
  {| net := network;
     GITHUB_TOKEN := Some "t0ken";
     now := "2025-06-01T12:00:00.000Z";
     root := "/work/audion-plugins";
     fs_fault := fun _ => None;
     number_to_string := Engine.Number_toString |}.

(** Two repositories carry the topic; only [acme] has published a
    manifest, every other path answers 404. *)
Definition steady : host :=
  host_of (fun _ o =>
    if is_search o then Reply 200 (listing 2 [ ghost; acme ])
    else if String.eqb (path o) (path acme_request)
    then Reply 200 (Json acme_manifest)
    else Reply 404 (Text "404: Not Found")).

(** The first request for [acme]'s manifest dies on the wire; the same
    request would be served from then on. *)
Definition flaky : host :=
  host_of (fun before o =>
    if is_search o then Reply 200 (listing 1 [ acme ])
    else if existsb (fun o' => String.eqb (path o') (path o)) before
    then Reply 200 (Json acme_manifest)
    else Failure (Error "read ECONNRESET")).

(** As [steady], but the response for [ghost]'s manifest breaks off after
    its headers. *)
Definition stalled : host :=
  host_of (fun _ o =>
    if is_search o then Reply 200 (listing 2 [ ghost; acme ])
    else if String.eqb (path o) (path acme_request)
    then Reply 200 (Json acme_manifest)
    else Stalled).

(** The raw host serves [acme]'s [plugin.json] holding the text [null]. *)
Definition hollow : host :=
  host_of (fun _ o =>
    if is_search o then Reply 200 (listing 1 [ acme ])
    else Reply 200 (Json VNull)).

(** 101 repositories carry the topic; the endpoint serves them 100 a
    page, the page named by [&page=], the first when there is none. *)
Definition crowd : list value :=
  List.map (fun i => repo_of ("org/plugin-" ++ pretty i) 1) (seq 1 101).

Definition paged : host :=
  host_of (fun _ o =>
    if negb (is_search o) then Reply 404 (Text "404: Not Found")
    else if String.eqb (path o) search_path
    then Reply 200 (listing 101 (listing_page crowd 100 1))
    else if String.eqb (path o) (search_path ++ "&page=2")
    then Reply 200 (listing 101 (listing_page crowd 100 2))
    else Reply 200 (listing 101 [])).

(** The request for the second page, and the one repository on it. *)
Definition second_page : options :=
  {| hostname := GITHUB_API;
     path := search_path ++ "&page=2";
     headers := headers (search_options paged) |}.

Definition straggler : value := repo_of "org/plugin-101" 1.

Definition named (full_name : string) (repo : value) : bool :=
  match get repo "full_name" with
  | VStr s => String.eqb s full_name
  | _ => false
  end.

(** A manifest of a type the host application does not know, and nothing
    else. *)
Definition typed_only : value := obj [ ("type", VStr "native") ].

(** [acme]'s manifest with more keys. *)
Definition acme_with (more : list (string * value)) : value :=
  match acme_manifest with
  | VObj props => VObj (list_to_map more ∪ props)
  | v => v
  end.

(** A manifest with no [version], no [entry] and no [permissions]. *)
Definition unversioned : value :=
  obj [ ("name", VStr "My Plugin"); ("author", VStr "Acme");
        ("type", VStr "js") ].

(** A plugin that asks for no permission. *)
Definition harmless : value := acme_with [ ("permissions", VArr []) ].

(** Wrong in its type, its permissions and its category. *)
Definition mistyped : value :=
  acme_with [ ("type", VStr "native"); ("permissions", VStr "all");
              ("category", VStr "bogus") ].

Definition games : value := acme_with [ ("category", VStr "games") ].
Definition uncategorised : value := acme_with [ ("category", VStr "") ].

(** The three optional keys are there, each with a falsy value. *)
Definition modest : value :=
  acme_with [ ("description", VNum 0); ("homepage", VStr "");
              ("license", VBool false) ].

(** All three supplied for good. *)
Definition complete : value :=
  acme_with [ ("description", VStr "Plays things");
              ("homepage", VStr "https://acme.example/plugin");
              ("license", VStr "GPL-3.0") ].

(** What the build makes of [steady]. *)
Definition steady_registry : Registry.t :=
  {| Registry.version := "1.0.0";
     Registry.updated_at := now steady;
     Registry.plugins := [ plugin_entry acme_url acme acme_manifest ] |}.

Definition empty_registry (h : host) : Registry.t :=
  {| Registry.version := "1.0.0";
     Registry.updated_at := now h;
     Registry.plugins := [] |}.

(** More worlds: a listing that is refused, unreachable, [null], not JSON,
    or not a list; a listing with a hole; a manifest that is not JSON; an
    output location that cannot be written; no token in the environment. *)
Definition down : host :=
  host_of (fun _ _ => Reply 503 (Text "Service Unavailable")).

Definition offline : host :=
  host_of (fun _ _ => Failure (Error "getaddrinfo ENOTFOUND api.github.com")).

Definition null_listing : host :=
  host_of (fun _ _ => Reply 200 (Json VNull)).

Definition html_listing : host :=
  host_of (fun _ _ => Reply 200 (Text "<html>rate limited</html>")).

Definition odd_listing : host :=
  host_of (fun _ _ =>
    Reply 200 (Json (obj [ ("total_count", VNum 1); ("items", VNum 1) ]))).

Definition holed : host :=
  host_of (fun _ o =>
    if is_search o then Reply 200 (listing 2 [ acme; VNull ])
    else Reply 200 (Json acme_manifest)).

Definition garbled : host :=
  host_of (fun _ o =>
    if is_search o then Reply 200 (listing 1 [ acme ])
    else Reply 200 (Text "name: My Plugin")).

(** [acme]'s repository serves the manifest [mistyped]. *)
Definition wrong : host :=
  host_of (fun _ o =>
    if is_search o then Reply 200 (listing 1 [ acme ])
    else Reply 200 (Json mistyped)).

Definition read_only : host :=
  {| net := net steady;
     GITHUB_TOKEN := GITHUB_TOKEN steady;
     now := now steady;
     root := root steady;
     fs_fault := fun c =>
       match c with
       | WriteFileSync _ _ => Some (Error "EACCES: permission denied")
       | _ => None
       end;
     number_to_string := number_to_string steady |}.

Definition anonymous : host :=
  {| net := net steady;
     GITHUB_TOKEN := None;
     now := now steady;
     root := root steady;
     fs_fault := fs_fault steady;
     number_to_string := number_to_string steady |}.

(** Valid but for its permissions, which are a string; the category is
    wrong as well. *)
Definition scalar_permissions : value :=
  acme_with [ ("permissions", VStr "all"); ("category", VStr "bogus") ].

(** An object that cannot be converted to a string, and documents that
    hold it: a manifest by its type, a manifest by its name, a repository
    by its [full_name], by its [default_branch]. *)
Definition opaque : value := obj [ ("toString", VNum 1) ].

Definition opaque_type : value := acme_with [ ("type", opaque) ].
Definition opaque_name : value := acme_with [ ("name", opaque) ].

Definition nameless : value :=
  obj [ ("full_name", opaque); ("default_branch", VStr "main") ].

Definition branchless : value :=
  obj [ ("full_name", VStr "acme/my-plugin"); ("default_branch", opaque) ].

(** A repository on a branch whose name https.request does not accept. *)
Definition spaced : value :=
  obj [ ("full_name", VStr "acme/my-plugin"); ("default_branch", VStr "my branch") ].

(** [acme]'s repository serves a manifest whose type, or whose name,
    cannot be converted. *)
Definition obscure : host :=
  host_of (fun _ o =>
    if is_search o then Reply 200 (listing 1 [ acme ])
    else Reply 200 (Json opaque_type)).

Definition untitled : host :=
  host_of (fun _ o =>
    if is_search o then Reply 200 (listing 1 [ acme ])
    else Reply 200 (Json opaque_name)).

(** A plugin whose name is an empty object. *)
Definition unnamed : value := acme_with [ ("name", obj []) ].

(** [acme]'s manifest with a [min_version]. *)
Definition versioned : gmap string value :=
  match acme_with [ ("min_version", VStr "2.0.0") ] with
  | VObj props => props
  | _ => ∅
  end.

End Examples.

(** ** Vocabulary of the statements *)

(** Every required field holds a truthy value: the loop over
    [REQUIRED_FIELDS] finds nothing. *)
Definition required_present (manifest : value) : bool :=
  forallb (fun field => truthy (get manifest field)) REQUIRED_FIELDS.

(** The first four tests of [validateManifest] all pass. *)
Definition passes_first_four (manifest : value) : bool :=
  mapping_like manifest
  && required_present manifest
  && includes VALID_TYPES (get manifest "type")
  && isArray (get manifest "permissions").

(** The last test of [validateManifest] passes. *)
Definition category_ok (manifest : value) : bool :=
  negb (truthy (get manifest "category"))
  || includes VALID_CATEGORIES (get manifest "category").

(** [props[k] || fallback], by what [props] holds at [k]. *)
Definition supplied_or (props : gmap string value) (k : string) (fallback : value)
  : value :=
  match props !! k with
  | Some v => if truthy v then v else fallback
  | None => fallback
  end.

(** What the conversions of this script throw. *)
Definition unconvertible : exn :=
  TypeError "Cannot convert object to primitive value".

(** [`${repo.full_name}`] as line 115 evaluates it, outside the [try]:
    the text the turn announces the repository with, unless reading the
    property or converting it throws. *)
Definition announce (h : host) (repo : value) : result string :=
  if nullish repo then Throw (null_read repo "full_name")
  else to_string h (get repo "full_name").

(** The [options] that [fetchPluginManifest] builds for [repo] (lines
    63-69), unless a conversion throws. *)
Definition repo_request (h : host) (repo : value) : result options :=
  (full_name <~ announce h repo ;
   default_branch <~ to_string h (get repo "default_branch") ;
   Ok (manifest_options (manifest_path full_name default_branch)))%result.

(** The request [o] is one that [https.request] sends, and [out] is what
    it comes to in world [w]. *)
Definition answered (h : host) (w : world) (o : options) (out : outcome) : Prop :=
  refusal o = None /\ net h (sent w) o = out.

(** The turn of [repo] in world [w] announces it with [shown], sends the
    manifest request [o], and the request comes to [out]. *)
Definition asked (h : host) (repo : value) (w : world)
  (shown : string) (o : options) (out : outcome) : Prop :=
  announce h repo = Ok shown /\ repo_request h repo = Ok o /\ answered h w o out.

(** The lines of a turn. *)
Definition checking_line (shown : string) : string := nl ++ "Checking: " ++ shown.
Definition no_manifest_line : string := "  ❌ No plugin.json found".
Definition error_line (err : exn) : string := "  ❌ Error: " ++ message err.
Definition invalid_line (v : validation) : string :=
  "  ❌ Invalid manifest: " ++ error_text v.
Definition valid_line (shown : string) : string := "  ✅ Valid plugin: " ++ shown.

(** The world of a turn once its request is sent, and the world the turn
    leaves when it ends on [line]. *)
Definition waiting (shown : string) (o : options) (w : world) : world :=
  with_sent (with_line w (checking_line shown)) o.

Definition skipped (shown : string) (o : options) (line : string) (w : world)
  : world :=
  with_line (waiting shown o w) line.

(** The world a turn leaves when it ends on [line] without having sent a
    request. *)
Definition unsent (shown : string) (line : string) (w : world) : world :=
  with_line (with_line w (checking_line shown)) line.

(** What the [try] block makes of the document [manifest] fetched for
    [repo] from the path [p]: the array and the line it ends on, unless a
    conversion throws. *)
Definition judged (h : host) (plugins : list Plugin.t) (repo : value)
  (p : string) (manifest : value) : result (list Plugin.t * string) :=
  (if negb (truthy manifest) then Ok (plugins, no_manifest_line)
   else
     validation <~ validateManifest h manifest ;
     if negb (valid validation) then Ok (plugins, invalid_line validation)
     else
       shown <~ to_string h (get manifest "name") ;
       Ok ((plugins ++ [plugin_entry (raw_url p) repo manifest])%list,
           valid_line shown))%result.

(** One turn of the loop whose request [o] was sent, as a function of what
    the request comes to: the array when the turn ends and the last line it
    prints, or nothing when the turn does not end.  What is thrown inside
    the [try] ends the turn on the line of the [catch]. *)
Definition turn (h : host) (plugins : list Plugin.t) (repo : value)
  (o : options) (out : outcome) : option (list Plugin.t * string) :=
  match out with
  | Stalled => None
  | Failure err => Some (plugins, error_line err)
  | Reply statusCode content =>
      match judged h plugins repo (path o)
              (if negb (Z.eqb statusCode 200) then VNull else decode content) with
      | Ok ended => Some ended
      | Throw err => Some (plugins, error_line err)
      | Pending => None
      end
  end.

(** [entry] was built from a manifest that [fetchPluginManifest] returned
    for one of [items] and that [validateManifest] accepted. *)
Definition admitted (h : host) (items : list value) (entry : Plugin.t) : Prop :=
  exists repo manifest w1 w2 o,
    In repo items /\
    fetchPluginManifest h repo w1 = (Ok manifest, w2) /\
    validateManifest h manifest = Ok Accepted /\
    repo_request h repo = Ok o /\
    entry = plugin_entry (raw_url (path o)) repo manifest.

(** [entry] was pushed for [repo], from a manifest the validator accepted. *)
Definition pushed_for (h : host) (repo : value) (entry : Plugin.t) : Prop :=
  exists manifest o,
    validateManifest h manifest = Ok Accepted /\
    repo_request h repo = Ok o /\
    entry = plugin_entry (raw_url (path o)) repo manifest.

(** The outcome of a request is the one [fetchPluginManifest] turns into
    [null] (a status other than 200), or the ['error'] event of the
    request. *)
Definition not_found (out : outcome) : Prop :=
  exists statusCode content, out = Reply statusCode content /\ statusCode <> 200%Z.
Definition transport_failure (out : outcome) : Prop :=
  exists err, out = Failure err.

(** A network that answers a request the same way whatever was sent
    before, and a network on which every request that is sent ends, in a
    response or in an error. *)
Definition memoryless (h : host) : Prop :=
  forall before o, net h before o = net h [] o.

Definition responsive (h : host) : Prop :=
  forall before o, net h before o <> Stalled.

(** The loop gets past the line that announces [repo]. *)
Definition announceable (h : host) (repo : value) : Prop :=
  exists shown, announce h repo = Ok shown.

(** The requests a loop over [items] sends: one for each item whose
    [options] can be built and are accepted by [https.request]. *)
Fixpoint requests (h : host) (items : list value) : list options :=
  match items with
  | [] => []
  | repo :: rest =>
      match repo_request h repo with
      | Ok o =>
          match refusal o with
          | None => o :: requests h rest
          | Some _ => requests h rest
          end
      | _ => requests h rest
      end
  end.

(** The file system after [calls]. *)
Definition final (calls : list fs_call) (files : gmap string file)
  : gmap string file :=
  fold_left (fun files c => fs_after c files) calls files.

(** What [for ... of] accepts. *)
Definition iterable (v : value) : bool :=
  match v with
  | VArr _ | VStr _ => true
  | _ => false
  end.

(** The keys [validateManifest] reads, and the keys of the manifest that
    [plugin_entry] reads. *)
Definition READ_BY_VALIDATOR : list string := (REQUIRED_FIELDS ++ [ "category" ])%list.

Definition READ_BY_ENTRY : list string :=
  [ "name"; "version"; "author"; "description"; "type"; "entry"; "permissions";
    "ui_slots"; "icon"; "homepage"; "category"; "tags"; "license" ].

(** The tests of [validateManifest], on the fields of an entry. *)
Definition admissible (e : Manifest.t) : bool :=
  truthy (Manifest.name e) && truthy (Manifest.version e)
  && truthy (Manifest.author e) && truthy (Manifest.entry e)
  && includes VALID_TYPES (Manifest.type e)
  && isArray (Manifest.permissions e)
  && (negb (truthy (Manifest.category e))
      || includes VALID_CATEGORIES (Manifest.category e)).

(** What every entry the script pushes looks like. *)
Definition auto_discovered (e : Plugin.t) : Prop :=
  admissible (Plugin.manifest e) = true /\
  Plugin.curated e = false /\
  Plugin.verified e = false /\
  Plugin.downloads e = 0%Z /\
  Plugin.repo e = Manifest.repo (Plugin.manifest e) /\
  Plugin.manifest_url e = Manifest.manifest_url (Plugin.manifest e).

(** The world once [searchRepos] has sent its request, and once it has
    printed the count. *)
Definition searching_line : string :=
  "Searching GitHub for repos with topic: " ++ TOPIC.

Definition searched (h : host) (w : world) : world :=
  with_sent (with_line w searching_line) (search_options h).

Definition found (h : host) (shown : string) (w : world) : world :=
  with_line (searched h w) ("Found " ++ shown ++ " repos").

(** What the script throws. *)
Definition api_error (statusCode : Z) : exn :=
  Error ("GitHub API error: " ++ pretty statusCode).

Definition not_iterable : exn := TypeError "repos is not iterable".

(** The document [buildRegistry] builds around [plugins]. *)
Definition registry_of (h : host) (plugins : list Plugin.t) : Registry.t :=
  {| Registry.version := "1.0.0";
     Registry.updated_at := now h;
     Registry.plugins := plugins |}.

(** [buildRegistry] from the end of its loop on. *)
Definition finish (h : host) (plugins : list Plugin.t) : M Registry.t :=
  present <- existsSync (OUTPUT_DIR h) ;;
  (if negb present then mkdirSync h (OUTPUT_DIR h) else ret tt) ;;;
  writeFileSync h (OUTPUT_PATH h) (registry_of h plugins) ;;;
  log (nl ++ "✅ Registry built with " ++ pretty (List.length plugins) ++ " plugins") ;;;
  log ("   Written to: " ++ OUTPUT_PATH h) ;;;
  ret (registry_of h plugins).

(** A file system that never fails. *)
Definition no_fault (h : host) : Prop := forall c, fs_fault h c = None.

(** * Properties *)

(** ** Conversions *)

Section Conversions.

Context (h : host).

(** A conversion returns a string or throws the one [TypeError]: it is
    synchronous. *)
Lemma to_string_cases (v : value) :
  (exists s, to_string h v = Ok s) \/ to_string h v = Throw unconvertible.
Proof.
  revert v. fix IH 1. intros [| | b | x | s | elems | props]; cbn [to_string];
    try (left; eexists; reflexivity).
  - revert elems. fix IHl 1. intros [| e rest].
    + left. eexists. reflexivity.
    + pose proof (IHl rest) as Hrest. pose proof (IH e) as He.
      destruct (nullish e).
      * destruct rest as [| e' rest']; [left; eexists; reflexivity |].
        destruct Hrest as [[t Ht] | Ht]; rewrite Ht;
          [left; eexists; reflexivity | now right].
      * destruct He as [[s Hs] | Hs]; rewrite Hs; [| now right].
        destruct rest as [| e' rest']; [left; eexists; reflexivity |].
        destruct Hrest as [[t Ht] | Ht]; rewrite Ht;
          [left; eexists; reflexivity | now right].
  - destruct (props !! "toString"); [now right | left; eexists; reflexivity].
Qed.

Lemma to_string_settles (v : value) : to_string h v <> Pending.
Proof. destruct (to_string_cases v) as [[s Hs] | Hs]; rewrite Hs; discriminate. Qed.

Lemma to_string_throws (v : value) (e : exn) :
  to_string h v = Throw e -> e = unconvertible.
Proof.
  destruct (to_string_cases v) as [[s Hs] | Hs]; rewrite Hs; [discriminate |].
  now intros [= <-].
Qed.

End Conversions.

(** ** The validator *)

Section Validator.

Context (h : host).
Implicit Types (m manifest : value) (fields : list string).

Lemma mapping_like_shape m :
  mapping_like m = true <-> (exists props, m = VObj props) \/ (exists elems, m = VArr elems).
Proof.
  split.
  - unfold mapping_like.
    destruct m; cbn [typeof truthy]; rewrite andb_true_iff; intros [Ht H];
      try discriminate Ht; try discriminate H; eauto.
  - intros [[props ->] | [elems ->]]; reflexivity.
Qed.

Lemma mapping_like_guard m :
  negb (truthy m) || negb (String.eqb (typeof m) "object") = negb (mapping_like m).
Proof. unfold mapping_like. now rewrite negb_andb. Qed.

(** What the loop over the required fields returns, without the loop. *)
Lemma first_missing_Some m fields f :
  first_missing m fields = Some f <->
  exists before after,
    fields = (before ++ f :: after)%list /\
    (forall g, In g before -> truthy (get m g) = true) /\
    truthy (get m f) = false.
Proof.
  induction fields as [| g fields IH]; cbn.
  - split; [discriminate |].
    intros (before & after & E & _). now destruct before.
  - destruct (truthy (get m g)) eqn:Hg; cbn.
    + rewrite IH. split.
      * intros (before & after & -> & Hb & Hf).
        exists (g :: before), after. repeat split; auto.
        intros g' [<- | Hin]; auto.
      * intros (before & after & E & Hb & Hf).
        destruct before as [| g' before]; cbn in E; injection E as <- E.
        -- congruence.
        -- exists before, after. repeat split; auto.
           intros x Hx. apply Hb. now right.
    + split.
      * intros [= <-]. exists [], fields. repeat split; auto; intros x [].
      * intros (before & after & E & Hb & Hf).
        destruct before as [| g' before]; cbn in E; injection E as <- E.
        -- reflexivity.
        -- specialize (Hb g (or_introl eq_refl)). congruence.
Qed.

Lemma first_missing_None m fields :
  first_missing m fields = None <->
  forallb (fun field => truthy (get m field)) fields = true.
Proof.
  induction fields as [| g fields IH]; cbn; [tauto |].
  destruct (truthy (get m g)); cbn; [exact IH | split; discriminate].
Qed.

(** The validator by its five tests. *)
Lemma validateManifest_tests m :
  validateManifest h m =
    if negb (mapping_like m) then Ok (Rejected MalformedDocument)
    else match first_missing m REQUIRED_FIELDS with
         | Some field => Ok (Rejected (MissingField field))
         | None =>
             if negb (includes VALID_TYPES (get m "type"))
             then then_ (to_string h (get m "type"))
                        (fun shown => Ok (Rejected (InvalidType shown)))
             else if negb (isArray (get m "permissions"))
             then Ok (Rejected PermissionsNotArray)
             else if negb (category_ok m)
             then then_ (to_string h (get m "category"))
                        (fun shown => Ok (Rejected (InvalidCategory shown)))
             else Ok Accepted
         end.
Proof.
  unfold validateManifest, category_ok. rewrite mapping_like_guard.
  now rewrite negb_orb, negb_involutive.
Qed.

Lemma validateManifest_cases m :
  (exists v, validateManifest h m = Ok v
             /\ ((valid v = true /\ error v = None)
                 \/ (valid v = false /\ exists reason, error v = Some reason)))
  \/ validateManifest h m = Throw unconvertible.
Proof.
  rewrite validateManifest_tests.
  destruct (negb (mapping_like m)); [left; eexists; split; [reflexivity | cbn; eauto] |].
  destruct (first_missing m REQUIRED_FIELDS);
    [left; eexists; split; [reflexivity | cbn; eauto] |].
  destruct (negb (includes VALID_TYPES (get m "type"))).
  { destruct (to_string_cases h (get m "type")) as [[s ->] | ->]; cbn [then_];
      [left; eexists; split; [reflexivity | cbn; eauto] | now right]. }
  destruct (negb (isArray (get m "permissions")));
    [left; eexists; split; [reflexivity | cbn; eauto] |].
  destruct (negb (category_ok m)).
  { destruct (to_string_cases h (get m "category")) as [[s ->] | ->]; cbn [then_];
      [left; eexists; split; [reflexivity | cbn; eauto] | now right]. }
  left; eexists; split; [reflexivity | cbn; eauto].
Qed.

Lemma validateManifest_settles m : validateManifest h m <> Pending.
Proof.
  destruct (validateManifest_cases m) as [(v & -> & _) | ->]; discriminate.
Qed.

Lemma validateManifest_valid m v :
  validateManifest h m = Ok v -> valid v = true -> v = Accepted.
Proof.
  rewrite validateManifest_tests.
  repeat match goal with
         | |- context [if ?b then _ else _] => destruct b
         | |- context [match ?o with Some _ => _ | None => _ end] => destruct o
         | |- context [then_ ?r _] => destruct r; cbn [then_]
         end; intros [= <-]; cbn; congruence.
Qed.

Lemma accepted_checks m :
  validateManifest h m = Ok Accepted ->
  passes_first_four m = true /\ category_ok m = true.
Proof.
  rewrite validateManifest_tests. unfold passes_first_four, required_present.
  destruct (mapping_like m); cbn [negb andb]; [| discriminate].
  destruct (first_missing m REQUIRED_FIELDS) eqn:Hreq; [discriminate |].
  apply first_missing_None in Hreq. rewrite Hreq.
  destruct (includes VALID_TYPES (get m "type")); cbn [negb andb];
    [| destruct (to_string h (get m "type")); discriminate].
  destruct (isArray (get m "permissions")); cbn [negb andb]; [| discriminate].
  destruct (category_ok m); cbn [negb]; [auto |].
  destruct (to_string h (get m "category")); discriminate.
Qed.

Lemma validateManifest_Accepted_object m :
  validateManifest h m = Ok Accepted -> exists props, m = VObj props.
Proof.
  intros Hok. pose proof (accepted_checks m Hok) as [Hfour _].
  unfold passes_first_four in Hfour. rewrite !andb_true_iff in Hfour.
  destruct Hfour as [[[Hm Hreq] _] _].
  apply mapping_like_shape in Hm as [[props ->] | [elems ->]]; [eauto |].
  discriminate Hreq.
Qed.

(** C7, amended: a mapping-like manifest in which some required key is
    missing or holds a falsy value is rejected with [MissingField f], where
    [f] is the first such key in the order of [REQUIRED_FIELDS]: every key
    before [f] holds a truthy value and [f] does not.  Falsy is what the
    test [!manifest[field]] takes for missing; an empty array and an empty
    object are not. *)
Theorem validate_reports_first_missing_field m :
  mapping_like m = true ->
  (exists g, In g REQUIRED_FIELDS /\ truthy (get m g) = false) ->
  exists before f after,
    REQUIRED_FIELDS = (before ++ f :: after)%list /\
    (forall g, In g before -> truthy (get m g) = true) /\
    truthy (get m f) = false /\
    validateManifest h m = Ok (Rejected (MissingField f)).
Proof.
  intros Hm (g & Hin & Hg).
  destruct (first_missing m REQUIRED_FIELDS) as [f |] eqn:Hf.
  - pose proof Hf as (before & after & E & Hb & Hff)%first_missing_Some.
    exists before, f, after. repeat split; auto.
    now rewrite validateManifest_tests, Hm, Hf.
  - apply first_missing_None in Hf.
    rewrite forallb_forall in Hf. specialize (Hf g Hin). congruence.
Qed.

(** C5, amended: when the six required keys of a mapping-like manifest all
    hold truthy values and the value of [type] is outside [{js, wasm}], the
    validator goes on to build the message of [InvalidType] from that value,
    whatever [permissions], [category] and the other keys hold: it returns
    the rejection with the text of the value when the value converts to a
    string, and throws what the conversion throws when it does not. *)
Theorem validate_invalid_type m :
  mapping_like m = true ->
  required_present m = true ->
  includes VALID_TYPES (get m "type") = false ->
  validateManifest h m =
    (shown <~ to_string h (get m "type") ;
     Ok (Rejected (InvalidType shown)))%result.
Proof.
  intros Hm Hreq Hty. rewrite validateManifest_tests, Hm. cbn [negb].
  apply first_missing_None in Hreq. now rewrite Hreq, Hty.
Qed.

(** C6, amended: for a manifest that passes the first four tests, the
    verdict is [Accepted] when the value of [category] is falsy or one of
    the five categories: a [category] that is present but falsy is accepted
    like an absent one.  When the value is truthy and outside the five, the
    validator builds the message of [InvalidCategory] from it: it returns
    the rejection with the text of the value when the value converts to a
    string, and throws what the conversion throws when it does not. *)
Theorem validate_category m :
  passes_first_four m = true ->
  validateManifest h m =
    if truthy (get m "category")
    then if includes VALID_CATEGORIES (get m "category")
         then Ok Accepted
         else (shown <~ to_string h (get m "category") ;
               Ok (Rejected (InvalidCategory shown)))%result
    else Ok Accepted.
Proof.
  unfold passes_first_four. rewrite !andb_true_iff.
  intros [[[Hm Hreq] Hty] Hperm].
  rewrite validateManifest_tests, Hm. cbn [negb].
  apply first_missing_None in Hreq. rewrite Hreq, Hty, Hperm. cbn [negb].
  unfold category_ok.
  destruct (truthy (get m "category")); cbn [negb orb]; [| reflexivity].
  now destruct (includes VALID_CATEGORIES (get m "category")).
Qed.

End Validator.

(** ** One turn of the loop *)

Section Loop.

Context (h : host).
Implicit Types (w : world) (repo manifest : value) (plugins : list Plugin.t).

Lemma truthy_not_nullish v : truthy v = true -> nullish v = false.
Proof. now destruct v. Qed.

Lemma get_prop_ok v k w : nullish v = false -> get_prop v k w = (Ok (get v k), w).
Proof. intros Hv. unfold get_prop. now rewrite Hv. Qed.

Lemma announce_settles repo : announce h repo <> Pending.
Proof.
  unfold announce. destruct (nullish repo); [discriminate | apply to_string_settles].
Qed.

Lemma repo_request_settles repo : repo_request h repo <> Pending.
Proof.
  unfold repo_request. pose proof (announce_settles repo).
  destruct (announce h repo); cbn [then_]; try congruence.
  pose proof (to_string_settles h (get repo "default_branch")).
  destruct (to_string h (get repo "default_branch")); cbn [then_]; congruence.
Qed.

(** The request of a repository is the request for its path. *)
Lemma repo_request_shape repo o :
  repo_request h repo = Ok o -> o = manifest_options (path o).
Proof.
  unfold repo_request.
  destruct (announce h repo); cbn [then_]; try discriminate.
  destruct (to_string h (get repo "default_branch")); cbn [then_]; try discriminate.
  now intros [= <-].
Qed.

Lemma repo_request_announced repo o :
  repo_request h repo = Ok o -> announceable h repo.
Proof.
  unfold repo_request, announceable.
  destruct (announce h repo); cbn [then_]; try discriminate. eauto.
Qed.

(** The template literal of lines 65, 142 and 156. *)
Lemma repo_path_request repo w :
  repo_path h repo w =
    (match repo_request h repo with
     | Ok o => Ok (path o)
     | Throw e => Throw e
     | Pending => Pending
     end, w).
Proof.
  unfold repo_path, repo_request, announce, bind at 1, get_prop.
  destruct (nullish repo); [reflexivity |].
  unfold ret at 1, bind at 1, lift at 1.
  destruct (to_string h (get repo "full_name")); cbn [then_]; try reflexivity.
  unfold bind at 1, ret at 1, bind at 1, lift at 1.
  destruct (to_string h (get repo "default_branch")); reflexivity.
Qed.

(** [fetchPluginManifest] sends at most one request and ends by what the
    request comes to. *)
Lemma fetchPluginManifest_cases repo w :
  fetchPluginManifest h repo w =
    match repo_request h repo with
    | Throw e => (Throw e, w)
    | Pending => (Pending, w)
    | Ok o =>
        match refusal o with
        | Some e => (Throw e, w)
        | None =>
            match net h (sent w) o with
            | Reply statusCode content =>
                (Ok (if negb (Z.eqb statusCode 200) then VNull else decode content),
                 with_sent w o)
            | Failure err => (Throw err, with_sent w o)
            | Stalled => (Pending, with_sent w o)
            end
        end
    end.
Proof.
  unfold fetchPluginManifest, bind at 1. rewrite repo_path_request.
  destruct (repo_request h repo) as [o | e |] eqn:Hreq; try reflexivity.
  rewrite <- (repo_request_shape _ _ Hreq).
  unfold bind, httpsGet. destruct (refusal o); [reflexivity |].
  destruct (net h (sent w) o) as [statusCode content | err |]; try reflexivity.
  cbn [status data]. now destruct (negb (Z.eqb statusCode 200)).
Qed.

Lemma fetchPluginManifest_outcome repo w o out :
  repo_request h repo = Ok o ->
  answered h w o out ->
  fetchPluginManifest h repo w =
    match out with
    | Reply statusCode content =>
        (Ok (if negb (Z.eqb statusCode 200) then VNull else decode content),
         with_sent w o)
    | Failure err => (Throw err, with_sent w o)
    | Stalled => (Pending, with_sent w o)
    end.
Proof.
  intros Hreq [Hsend Hnet]. now rewrite fetchPluginManifest_cases, Hreq, Hsend, Hnet.
Qed.

(** The [try] block, from the document that was fetched. *)
Lemma inspect_judged plugins repo o w :
  repo_request h repo = Ok o ->
  inspect h plugins repo w =
    match fetchPluginManifest h repo w with
    | (Ok manifest, w') =>
        match judged h plugins repo (path o) manifest with
        | Ok (out, line) => (Ok out, with_line w' line)
        | Throw e => (Throw e, w')
        | Pending => (Pending, w')
        end
    | (Throw e, w') => (Throw e, w')
    | (Pending, w') => (Pending, w')
    end.
Proof.
  intros Hreq. unfold inspect, bind at 1.
  destruct (fetchPluginManifest h repo w) as [[manifest | e |] w']; try reflexivity.
  unfold judged. destruct (truthy manifest) eqn:Htruthy; cbn [negb]; [| reflexivity].
  unfold bind at 1, lift at 1.
  destruct (validateManifest h manifest) as [v | e |]; cbn [then_]; try reflexivity.
  destruct (valid v); cbn [negb]; [| reflexivity].
  unfold bind at 1. rewrite get_prop_ok by now apply truthy_not_nullish.
  unfold bind at 1, lift at 1.
  destruct (to_string h (get manifest "name")); cbn [then_]; try reflexivity.
  unfold bind at 1, log at 1, bind at 1. now rewrite repo_path_request, Hreq.
Qed.

(** One turn, in full: thrown out of the loop on the line that announces
    the repository; ended by the [catch] with nothing sent when the request
    cannot be built or is refused; and otherwise as [turn] has it. *)
Lemma process_repo_cases plugins repo w :
  process_repo h plugins repo w =
    match announce h repo with
    | Throw e => (Throw e, w)
    | Pending => (Pending, w)
    | Ok shown =>
        match repo_request h repo with
        | Throw e => (Ok plugins, unsent shown (error_line e) w)
        | Pending => (Pending, with_line w (checking_line shown))
        | Ok o =>
            match refusal o with
            | Some e => (Ok plugins, unsent shown (error_line e) w)
            | None =>
                match turn h plugins repo o (net h (sent w) o) with
                | Some (out, line) => (Ok out, skipped shown o line w)
                | None => (Pending, waiting shown o w)
                end
            end
        end
    end.
Proof.
  unfold process_repo, bind at 1, get_prop.
  unfold announce at 1. destruct (nullish repo) eqn:Hrepo; [reflexivity |].
  unfold ret at 1, bind at 1, lift at 1.
  destruct (to_string h (get repo "full_name")) as [shown | e |] eqn:Hshown;
    try reflexivity.
  unfold bind at 1, log at 1, try_catch.
  destruct (repo_request h repo) as [o | e |] eqn:Hreq.
  - rewrite (inspect_judged _ _ _ _ Hreq), fetchPluginManifest_cases, Hreq.
    destruct (refusal o); [reflexivity |].
    change (sent (with_line w _)) with (sent w).
    destruct (net h (sent w) o) as [statusCode content | err |]; try reflexivity.
    cbn [turn].
    destruct (judged h plugins repo (path o) _) as [[out line] | e |]; reflexivity.
  - unfold inspect, bind at 1. now rewrite fetchPluginManifest_cases, Hreq.
  - unfold inspect, bind at 1. now rewrite fetchPluginManifest_cases, Hreq.
Qed.

(** A turn whose request is sent. *)
Lemma process_repo_turn plugins repo w shown o out :
  asked h repo w shown o out ->
  process_repo h plugins repo w =
    match turn h plugins repo o out with
    | Some (out', line) => (Ok out', skipped shown o line w)
    | None => (Pending, waiting shown o w)
    end.
Proof.
  intros (Hshown & Hreq & Hsend & Hnet).
  now rewrite process_repo_cases, Hshown, Hreq, Hsend, Hnet.
Qed.

Lemma judged_settles plugins repo p manifest :
  judged h plugins repo p manifest <> Pending.
Proof.
  unfold judged. destruct (truthy manifest); cbn [negb]; [| discriminate].
  pose proof (validateManifest_settles h manifest).
  destruct (validateManifest h manifest) as [v | e |]; cbn [then_]; try congruence.
  destruct (valid v); cbn [negb]; [| discriminate].
  pose proof (to_string_settles h (get manifest "name")).
  destruct (to_string h (get manifest "name")); cbn [then_]; congruence.
Qed.

(** A turn ends unless its request stalls. *)
Lemma turn_ends plugins repo o out :
  out <> Stalled -> exists ended, turn h plugins repo o out = Some ended.
Proof.
  intros Hout. destruct out as [statusCode content | err |]; cbn [turn]; eauto.
  - pose proof (judged_settles plugins repo (path o)
                  (if negb (Z.eqb statusCode 200) then VNull else decode content)).
    destruct (judged h plugins repo (path o) _); eauto. congruence.
  - congruence.
Qed.

(** What a turn that ends has made of the array. *)
Lemma turn_adds plugins repo o out ended :
  turn h plugins repo o out = Some ended ->
  fst ended = plugins
  \/ exists statusCode content,
       out = Reply statusCode content /\
       let manifest := if negb (Z.eqb statusCode 200) then VNull else decode content in
       validateManifest h manifest = Ok Accepted /\
       fst ended = (plugins ++ [plugin_entry (raw_url (path o)) repo manifest])%list.
Proof.
  destruct out as [statusCode content | err |]; cbn [turn]; try discriminate.
  - unfold judged.
    set (manifest := if negb (Z.eqb statusCode 200) then VNull else decode content).
    destruct (truthy manifest); cbn [negb]; [| intros [= <-]; now left].
    destruct (validateManifest h manifest) as [v | e |] eqn:Hv; cbn [then_];
      try (intros [= <-]; now left); try discriminate.
    destruct (valid v) eqn:Hvalid; cbn [negb]; [| intros [= <-]; now left].
    destruct (to_string h (get manifest "name")); cbn [then_];
      try (intros [= <-]; now left); try discriminate.
    intros [= <-]. right. exists statusCode, content. split; [reflexivity |].
    cbn zeta. split; [| reflexivity].
    now rewrite (validateManifest_valid h _ _ Hv Hvalid) in Hv.
  - intros [= <-]. now left.
Qed.

Lemma process_repo_adds plugins repo w out w' :
  process_repo h plugins repo w = (Ok out, w') ->
  out = plugins
  \/ exists manifest o,
       fetchPluginManifest h repo w = (Ok manifest, with_sent w o) /\
       validateManifest h manifest = Ok Accepted /\
       repo_request h repo = Ok o /\
       out = (plugins ++ [plugin_entry (raw_url (path o)) repo manifest])%list.
Proof.
  rewrite process_repo_cases.
  destruct (announce h repo) as [shown | e |]; try discriminate.
  destruct (repo_request h repo) as [o | e |] eqn:Hreq; try discriminate.
  2: { intros [= <- _]. now left. }
  destruct (refusal o) eqn:Hsend; [intros [= <- _]; now left |].
  destruct (turn h plugins repo o (net h (sent w) o)) as [[out' line] |] eqn:Hturn;
    [| discriminate].
  intros [= <- _].
  destruct (turn_adds _ _ _ _ _ Hturn) as [Hsame | (statusCode & content & Hnet & Hok & Hout)].
  - now left.
  - right. eexists _, o. repeat split; [| exact Hok | exact Hout].
    now rewrite fetchPluginManifest_cases, Hreq, Hsend, Hnet.
Qed.

(** A turn leaves the file system alone. *)
Lemma process_repo_frame plugins repo w r w' :
  process_repo h plugins repo w = (r, w') ->
  fs_calls w' = fs_calls w /\ dirs w' = dirs w.
Proof.
  rewrite process_repo_cases.
  destruct (announce h repo); try (now intros [= _ <-]).
  destruct (repo_request h repo) as [o | e |]; try (now intros [= _ <-]).
  destruct (refusal o); [now intros [= _ <-] |].
  destruct (turn h plugins repo o _) as [[out line] |]; now intros [= _ <-].
Qed.

(** The requests of a turn. *)
Lemma process_repo_sent plugins repo w out w' :
  process_repo h plugins repo w = (Ok out, w') ->
  sent w' = (sent w ++ requests h [repo])%list.
Proof.
  rewrite process_repo_cases. cbn [requests].
  destruct (announce h repo); try discriminate.
  destruct (repo_request h repo) as [o | e |]; try discriminate.
  2: { intros [= _ <-]. cbn. now rewrite app_nil_r. }
  destruct (refusal o); [intros [= _ <-]; cbn; now rewrite app_nil_r |].
  destruct (turn h plugins repo o _) as [[out' line] |]; [| discriminate].
  now intros [= _ <-].
Qed.

(** With a memoryless network the array a turn produces, or the way it
    fails to, does not depend on the world the turn starts in. *)
Lemma process_repo_fst plugins repo w w' :
  memoryless h ->
  fst (process_repo h plugins repo w) = fst (process_repo h plugins repo w').
Proof.
  intros Hnet. rewrite !process_repo_cases.
  destruct (announce h repo); try reflexivity.
  destruct (repo_request h repo) as [o | e |]; try reflexivity.
  destruct (refusal o); [reflexivity |].
  rewrite (Hnet (sent w)), (Hnet (sent w')).
  now destruct (turn h plugins repo o _) as [[out line] |].
Qed.

End Loop.

(** ** The loop *)

Section Loops.

Context (h : host).
Implicit Types (w : world) (repo manifest : value) (plugins : list Plugin.t).

Lemma process_repos_app plugins before after w :
  process_repos h plugins (before ++ after) w =
    match process_repos h plugins before w with
    | (Ok plugins1, w1) => process_repos h plugins1 after w1
    | (Throw err, w1) => (Throw err, w1)
    | (Pending, w1) => (Pending, w1)
    end.
Proof.
  revert plugins w.
  induction before as [| repo before IH]; intros plugins w; cbn; [reflexivity |].
  unfold bind. destruct (process_repo h plugins repo w) as [[plugins' | err |] w'].
  - apply IH.
  - reflexivity.
  - reflexivity.
Qed.

Lemma process_repos_frame plugins items w r w' :
  process_repos h plugins items w = (r, w') ->
  fs_calls w' = fs_calls w /\ dirs w' = dirs w.
Proof.
  revert plugins w.
  induction items as [| repo items IH]; intros plugins w; cbn.
  - now intros [= _ <-].
  - unfold bind.
    destruct (process_repo h plugins repo w) as [[plugins' | err |] w1] eqn:Hturn;
      apply process_repo_frame in Hturn as [Hc Hd].
    + intros [Hc' Hd']%IH. split; congruence.
    + intros [= _ <-]. now split.
    + intros [= _ <-]. now split.
Qed.

Lemma process_repos_entries all items plugins w out w' :
  incl items all ->
  Forall (admitted h all) plugins ->
  process_repos h plugins items w = (Ok out, w') ->
  Forall (admitted h all) out.
Proof.
  revert plugins w.
  induction items as [| repo items IH]; intros plugins w Hincl Hall; cbn.
  - now intros [= <- _].
  - unfold bind.
    destruct (process_repo h plugins repo w) as [[plugins' | err |] w1] eqn:Hturn;
      try discriminate.
    apply IH; [intros x Hx; apply Hincl; now right |].
    destruct (process_repo_adds _ _ _ _ _ _ Hturn)
      as [-> | (manifest & o & Hfetch & Hok & Hreq & ->)]; [exact Hall |].
    apply Forall_app. split; [exact Hall |].
    constructor; [| constructor].
    exists repo, manifest, w, (with_sent w o), o. repeat split; auto.
    apply Hincl. now left.
Qed.

Lemma process_repos_sent plugins items w out w' :
  process_repos h plugins items w = (Ok out, w') ->
  sent w' = (sent w ++ requests h items)%list.
Proof.
  revert plugins w. induction items as [| repo items IH]; intros plugins w.
  - intros [= _ <-]. cbn. now rewrite app_nil_r.
  - cbn [process_repos]. unfold bind.
    destruct (process_repo h plugins repo w) as [[plugins' | err |] w1] eqn:Hturn;
      try discriminate.
    intros Hrest%IH. rewrite Hrest, (process_repo_sent _ _ _ _ _ _ Hturn).
    rewrite <- app_assoc. f_equal. cbn [requests].
    destruct (repo_request h repo) as [o | |]; try reflexivity.
    now destruct (refusal o).
Qed.

Lemma process_repos_fst plugins items w w' :
  memoryless h ->
  fst (process_repos h plugins items w) = fst (process_repos h plugins items w').
Proof.
  intros Hnet. revert plugins w w'.
  induction items as [| repo items IH]; intros plugins w w'; cbn; [reflexivity |].
  unfold bind. pose proof (process_repo_fst h plugins repo w w' Hnet) as Hfst.
  destruct (process_repo h plugins repo w) as [[p | e |] w1],
           (process_repo h plugins repo w') as [[p' | e' |] w1'];
    cbn [fst] in Hfst; try discriminate.
  - injection Hfst as <-. apply IH.
  - exact Hfst.
  - reflexivity.
Qed.

(** The loop returns when every item can be announced and every request
    that is sent ends. *)
Lemma process_repos_total plugins items w :
  responsive h ->
  Forall (announceable h) items ->
  exists out w', process_repos h plugins items w = (Ok out, w').
Proof.
  intros Hnet Hall. revert plugins w.
  induction Hall as [| repo items [shown Hshown] _ IH]; intros plugins w.
  - now exists plugins, w.
  - cbn [process_repos]. unfold bind. rewrite process_repo_cases, Hshown.
    pose proof (repo_request_settles h repo) as Hsettles.
    destruct (repo_request h repo) as [o | e |]; [| apply IH | congruence].
    destruct (refusal o); [apply IH |].
    destruct (turn_ends h plugins repo o _ (Hnet (sent w) o)) as [[out line] ->].
    apply IH.
Qed.

(** The loop throws only on the line that announces an item. *)
Lemma process_repos_throws plugins items w err w' :
  process_repos h plugins items w = (Throw err, w') ->
  exists repo, In repo items /\ announce h repo = Throw err.
Proof.
  revert plugins w. induction items as [| repo items IH]; intros plugins w.
  - discriminate.
  - cbn [process_repos]. unfold bind.
    destruct (process_repo h plugins repo w) as [[plugins' | err' |] w1] eqn:Hturn.
    + intros (repo' & Hin & Hthrow)%IH. exists repo'. split; [now right | exact Hthrow].
    + intros [= -> ->]. exists repo. split; [now left |].
      rewrite process_repo_cases in Hturn.
      destruct (announce h repo); try discriminate; [| congruence].
      destruct (repo_request h repo) as [o | |]; try discriminate.
      destruct (refusal o); [discriminate |].
      destruct (turn h plugins repo o _) as [[out line] |]; discriminate.
    + discriminate.
Qed.

(** The loop waits for ever only on a request that stalls. *)
Lemma process_repos_pending plugins items w w' :
  process_repos h plugins items w = (Pending, w') ->
  exists repo o before, In repo items /\ repo_request h repo = Ok o
                        /\ net h before o = Stalled.
Proof.
  revert plugins w. induction items as [| repo items IH]; intros plugins w.
  - discriminate.
  - cbn [process_repos]. unfold bind.
    destruct (process_repo h plugins repo w) as [[plugins' | err' |] w1] eqn:Hturn.
    + intros (repo' & o & before & Hin & Hrest)%IH.
      exists repo', o, before. split; [now right | exact Hrest].
    + discriminate.
    + intros _. rewrite process_repo_cases in Hturn.
      pose proof (announce_settles h repo).
      destruct (announce h repo); try discriminate; [| congruence].
      pose proof (repo_request_settles h repo).
      destruct (repo_request h repo) as [o | |] eqn:Hreq; try discriminate;
        [| congruence].
      destruct (refusal o); [discriminate |].
      destruct (net h (sent w) o) eqn:Hnet.
      * destruct (turn_ends h plugins repo o (Reply statusCode content))
          as [[out line] Hends]; [discriminate |].
        rewrite Hends in Hturn. discriminate.
      * discriminate.
      * exists repo, o, (sent w). split; [now left | now split].
Qed.

(** An item that cannot be announced keeps the loop from returning. *)
Lemma process_repos_stopped plugins items w repo err out w' :
  In repo items ->
  announce h repo = Throw err ->
  process_repos h plugins items w <> (Ok out, w').
Proof.
  revert plugins w. induction items as [| repo' items IH]; intros plugins w Hin Hthrow.
  - destruct Hin.
  - cbn [process_repos]. unfold bind. destruct Hin as [-> | Hin].
    + rewrite process_repo_cases, Hthrow. discriminate.
    + destruct (process_repo h plugins repo' w) as [[plugins' | err' |] w1];
        try discriminate.
      now apply IH.
Qed.

(** X17: the entries follow the order of discovery, one at most for each
    item: what a loop that returns has added to the array is, in order, one
    entry for each item of a sublist of the items, each built from its item
    and an accepted manifest.  Nothing is sorted and nothing is merged. *)
Theorem entries_follow_discovery_order plugins items w out w' :
  process_repos h plugins items w = (Ok out, w') ->
  exists kept added,
    out = (plugins ++ added)%list /\
    sublist kept items /\
    Forall2 (pushed_for h) kept added.
Proof.
  revert plugins w. induction items as [| repo items IH]; intros plugins w.
  - intros [= <- _]. exists [], []. rewrite app_nil_r. repeat split; constructor.
  - cbn [process_repos]. unfold bind.
    destruct (process_repo h plugins repo w) as [[plugins' | err |] w1] eqn:Hturn;
      try discriminate.
    intros (kept & added & -> & Hsub & Hall)%IH.
    destruct (process_repo_adds _ _ _ _ _ _ Hturn)
      as [-> | (manifest & o & _ & Hok & Hreq & ->)].
    + exists kept, added. repeat split; auto. now constructor.
    + exists (repo :: kept), (plugin_entry (raw_url (path o)) repo manifest :: added).
      rewrite <- app_assoc. repeat split; [now constructor |].
      constructor; [| exact Hall]. now exists manifest, o.
Qed.

End Loops.

(** ** Discovery, the fetcher and the assembler *)

Section Assembler.

Context (h : host).
Implicit Types (w : world) (repo manifest : value) (plugins : list Plugin.t).

(** [searchRepos] by what its one request comes to. *)
Lemma searchRepos_outcome w :
  searchRepos h w =
    match refusal (search_options h) with
    | Some err => (Throw err, with_line w searching_line)
    | None =>
        match net h (sent w) (search_options h) with
        | Stalled => (Pending, searched h w)
        | Failure err => (Throw err, searched h w)
        | Reply statusCode content =>
            if negb (Z.eqb statusCode 200)
            then (Throw (api_error statusCode), searched h w)
            else if nullish (decode content)
            then (Throw (null_read (decode content) "total_count"), searched h w)
            else match to_string h (get (decode content) "total_count") with
                 | Ok shown =>
                     (Ok (or_else (get (decode content) "items") (VArr [])),
                      found h shown w)
                 | Throw err => (Throw err, searched h w)
                 | Pending => (Pending, searched h w)
                 end
        end
    end.
Proof.
  unfold searchRepos, bind at 1, log at 1, bind at 1, httpsGet.
  destruct (refusal (search_options h)); [reflexivity |].
  change (sent (with_line w _)) with (sent w).
  destruct (net h (sent w) (search_options h)) as [statusCode content | err |];
    try reflexivity.
  cbn [status data]. destruct (negb (Z.eqb statusCode 200)); [reflexivity |].
  unfold bind at 1, get_prop. destruct (nullish (decode content)); [reflexivity |].
  unfold ret at 1, bind at 1, lift at 1.
  destruct (to_string h (get (decode content) "total_count")); reflexivity.
Qed.

(** Discovery is one request: [searchRepos] sends the listing request of
    [search_options] ([per_page=100], no page named) and nothing else, and
    when that request is answered with status 200 it returns the [items] of
    that one response, or an empty array when the response holds none. *)
Lemma searchRepos_single_request w content shown :
  answered h w (search_options h) (Reply 200 content) ->
  nullish (decode content) = false ->
  to_string h (get (decode content) "total_count") = Ok shown ->
  searchRepos h w
  = (Ok (or_else (get (decode content) "items") (VArr [])), found h shown w) /\
  sent (found h shown w) = (sent w ++ [search_options h])%list.
Proof.
  intros [Hsend Hnet] Hdata Hshown.
  rewrite searchRepos_outcome, Hsend, Hnet. cbn [Z.eqb Pos.eqb negb].
  now rewrite Hdata, Hshown.
Qed.

Lemma listing_items w content items shown :
  answered h w (search_options h) (Reply 200 content) ->
  get (decode content) "items" = VArr items ->
  to_string h (get (decode content) "total_count") = Ok shown ->
  searchRepos h w = (Ok (VArr items), found h shown w).
Proof.
  intros Hnet Hitems Hshown.
  assert (Hdata : nullish (decode content) = false).
  { destruct (decode content); try reflexivity; discriminate. }
  destruct (searchRepos_single_request w content shown Hnet Hdata Hshown) as [-> _].
  now rewrite Hitems.
Qed.

Lemma searchRepos_frame w r w' :
  searchRepos h w = (r, w') ->
  fs_calls w' = fs_calls w /\ dirs w' = dirs w.
Proof.
  rewrite searchRepos_outcome.
  destruct (refusal (search_options h)); [now intros [= _ <-] |].
  destruct (net h (sent w) (search_options h)) as [statusCode content | err |];
    try (now intros [= _ <-]).
  destruct (negb (Z.eqb statusCode 200)); [now intros [= _ <-] |].
  destruct (nullish (decode content)); [now intros [= _ <-] |].
  destruct (to_string h (get (decode content) "total_count")); now intros [= _ <-].
Qed.

Lemma searchRepos_sent w repos w0 :
  searchRepos h w = (Ok repos, w0) ->
  sent w0 = (sent w ++ [search_options h])%list.
Proof.
  rewrite searchRepos_outcome.
  destruct (refusal (search_options h)); [discriminate |].
  destruct (net h (sent w) (search_options h)) as [statusCode content | err |];
    try discriminate.
  destruct (negb (Z.eqb statusCode 200)); [discriminate |].
  destruct (nullish (decode content)); [discriminate |].
  destruct (to_string h (get (decode content) "total_count")); try discriminate.
  now intros [= _ <-].
Qed.

(** *** The phases of a build *)

Lemma build_after_search w repos w0 :
  searchRepos h w = (Ok repos, w0) ->
  buildRegistry h w
  = bind (for_of repos)
      (fun items => bind (process_repos h [] items) (finish h)) w0.
Proof. intros Hsearch. unfold buildRegistry, bind at 1. now rewrite Hsearch. Qed.

Lemma build_search_throws w err w0 :
  searchRepos h w = (Throw err, w0) -> buildRegistry h w = (Throw err, w0).
Proof. intros Hsearch. unfold buildRegistry, bind at 1. now rewrite Hsearch. Qed.

Lemma build_search_pending w w0 :
  searchRepos h w = (Pending, w0) -> buildRegistry h w = (Pending, w0).
Proof. intros Hsearch. unfold buildRegistry, bind at 1. now rewrite Hsearch. Qed.

Lemma build_after_loop w items w0 r w1 :
  searchRepos h w = (Ok (VArr items), w0) ->
  process_repos h [] items w0 = (r, w1) ->
  buildRegistry h w =
    match r with
    | Ok plugins => finish h plugins w1
    | Throw err => (Throw err, w1)
    | Pending => (Pending, w1)
    end.
Proof.
  intros Hsearch Hloop. rewrite (build_after_search _ _ _ Hsearch).
  unfold bind at 1, for_of, ret, bind at 1. rewrite Hloop. now destruct r.
Qed.

Lemma main_throws w err w' :
  buildRegistry h w = (Throw err, w') -> fst (main h w) = Some 1%Z.
Proof. intros Hrun. unfold main. now rewrite Hrun. Qed.

Lemma main_returns w registry w' :
  buildRegistry h w = (Ok registry, w') -> fst (main h w) = Some 0%Z.
Proof. intros Hrun. unfold main. now rewrite Hrun. Qed.

Lemma main_pending w w' :
  buildRegistry h w = (Pending, w') -> main h w = (None, w').
Proof. intros Hrun. unfold main. now rewrite Hrun. Qed.

Lemma for_of_world repos items w w' :
  for_of repos w = (Ok items, w') -> w' = w.
Proof. destruct repos; cbn; unfold ret, throw; congruence. Qed.

(** The end of the build, by what the file system does. *)
Lemma finish_cases plugins w :
  finish h plugins w =
    let asked_dir := with_call w (ExistsSync (OUTPUT_DIR h)) in
    let write w1 :=
      let w2 := with_call w1 (WriteFileSync (OUTPUT_PATH h) (registry_of h plugins)) in
      match fs_fault h (WriteFileSync (OUTPUT_PATH h) (registry_of h plugins)) with
      | Some err => (Throw err, w2)
      | None =>
          (Ok (registry_of h plugins),
           with_line
             (with_line w2
                (nl ++ "✅ Registry built with " ++ pretty (List.length plugins)
                 ++ " plugins"))
             ("   Written to: " ++ OUTPUT_PATH h))
      end in
    if bool_decide (OUTPUT_DIR h ∈ dirs w) then write asked_dir
    else
      match fs_fault h (MkdirSync (OUTPUT_DIR h)) with
      | Some err => (Throw err, with_call asked_dir (MkdirSync (OUTPUT_DIR h)))
      | None =>
          write (with_dir (with_call asked_dir (MkdirSync (OUTPUT_DIR h)))
                   (OUTPUT_DIR h))
      end.
Proof.
  unfold finish, bind at 1, existsSync. cbn zeta.
  destruct (bool_decide (OUTPUT_DIR h ∈ dirs w)); cbn [negb].
  - unfold bind, ret, writeFileSync, fs_do, log.
    now destruct (fs_fault h (WriteFileSync _ _)).
  - unfold bind, ret, mkdirSync, writeFileSync, fs_do, log, bind.
    destruct (fs_fault h (MkdirSync _)); [reflexivity |].
    now destruct (fs_fault h (WriteFileSync _ _)).
Qed.

Lemma finish_settles plugins w w' : finish h plugins w <> (Pending, w').
Proof.
  rewrite finish_cases. cbn zeta.
  repeat match goal with
         | |- context [if ?b then _ else _] => destruct b
         | |- context [match ?o with Some _ => _ | None => _ end] => destruct o
         end; discriminate.
Qed.

Lemma finish_returns plugins w registry w' :
  finish h plugins w = (Ok registry, w') ->
  registry = registry_of h plugins /\
  sent w' = sent w /\
  fs_calls w'
  = (fs_calls w
     ++ ExistsSync (OUTPUT_DIR h)
     :: (if bool_decide (OUTPUT_DIR h ∈ dirs w) then []
         else [ MkdirSync (OUTPUT_DIR h) ])
     ++ [ WriteFileSync (OUTPUT_PATH h) registry ])%list.
Proof.
  rewrite finish_cases. cbn zeta.
  destruct (bool_decide (OUTPUT_DIR h ∈ dirs w)).
  - destruct (fs_fault h (WriteFileSync _ _)); [discriminate |].
    intros [= <- <-]. cbn. now rewrite <- !app_assoc.
  - destruct (fs_fault h (MkdirSync _)); [discriminate |].
    destruct (fs_fault h (WriteFileSync _ _)); [discriminate |].
    intros [= <- <-]. cbn. now rewrite <- !app_assoc.
Qed.

Lemma finish_sent plugins w r w' :
  finish h plugins w = (r, w') -> sent w' = sent w.
Proof.
  rewrite finish_cases. cbn zeta.
  repeat match goal with
         | |- context [if ?b then _ else _] => destruct b
         | |- context [match ?o with Some _ => _ | None => _ end] => destruct o
         end; now intros [= _ <-].
Qed.

Lemma finish_ok plugins w :
  no_fault h ->
  exists w',
    finish h plugins w = (Ok (registry_of h plugins), w') /\
    sent w' = sent w /\
    In (WriteFileSync (OUTPUT_PATH h) (registry_of h plugins)) (fs_calls w').
Proof.
  intros Hno. rewrite finish_cases. cbn zeta. rewrite !Hno.
  destruct (bool_decide (OUTPUT_DIR h ∈ dirs w));
    eexists; repeat split; cbn; apply in_or_app; right; now left.
Qed.

Lemma finish_write_fault plugins w err :
  fs_fault h (MkdirSync (OUTPUT_DIR h)) = None ->
  fs_fault h (WriteFileSync (OUTPUT_PATH h) (registry_of h plugins)) = Some err ->
  exists w',
    finish h plugins w = (Throw err, w') /\
    console w' = console w /\
    sent w' = sent w /\
    List.last (fs_calls w') (ExistsSync "")
    = WriteFileSync (OUTPUT_PATH h) (registry_of h plugins).
Proof.
  intros Hmk Hwr. rewrite finish_cases. cbn zeta. rewrite Hmk, Hwr.
  destruct (bool_decide (OUTPUT_DIR h ∈ dirs w));
    eexists; repeat split; cbn; now rewrite !last_last.
Qed.

Lemma buildRegistry_phases w registry w' :
  buildRegistry h w = (Ok registry, w') ->
  exists repos w0 items plugins w1,
    searchRepos h w = (Ok repos, w0) /\
    for_of repos w0 = (Ok items, w0) /\
    process_repos h [] items w0 = (Ok plugins, w1) /\
    finish h plugins w1 = (Ok registry, w').
Proof.
  destruct (searchRepos h w) as [[repos | err |] w0] eqn:Hsearch.
  - rewrite (build_after_search _ _ _ Hsearch). unfold bind at 1.
    destruct (for_of repos w0) as [[items | err |] w0'] eqn:Hfor; try discriminate.
    pose proof (for_of_world _ _ _ _ Hfor) as ->.
    unfold bind at 1.
    destruct (process_repos h [] items w0) as [[plugins | err |] w1] eqn:Hloop;
      try discriminate.
    intros Hfinish. exists repos, w0, items, plugins, w1. auto.
  - rewrite (build_search_throws _ _ _ Hsearch). discriminate.
  - rewrite (build_search_pending _ _ Hsearch). discriminate.
Qed.

(** *** The claims on the fetcher and the assembler *)

(** C2, amended: a manifest request that was sent and ends in the ['error']
    event of the request is not sent again.  [fetchPluginManifest] throws the
    error of that one request, having sent nothing else; the [catch] of the
    loop prints it and the turn ends with the array unchanged. *)
Theorem transport_failure_not_retried plugins repo w shown o err :
  asked h repo w shown o (Failure err) ->
  httpsGet h o w = (Throw err, with_sent w o) /\
  fetchPluginManifest h repo w = (Throw err, with_sent w o) /\
  process_repo h plugins repo w = (Ok plugins, skipped shown o (error_line err) w) /\
  sent (skipped shown o (error_line err) w) = (sent w ++ [o])%list.
Proof.
  intros Hasked. pose proof Hasked as (_ & Hreq & Hout). repeat split.
  - destruct Hout as [Hsend Hnet]. unfold httpsGet. now rewrite Hsend, Hnet.
  - now rewrite (fetchPluginManifest_outcome h repo w o _ Hreq Hout).
  - now rewrite (process_repo_turn h plugins repo w shown o _ Hasked).
Qed.

(** C3: every entry in the [plugins] of the document that [buildRegistry]
    returns was built from a manifest that [fetchPluginManifest] returned
    for a discovered repository and on which [validateManifest] answered
    [Accepted]; a rejected or absent manifest leaves no entry. *)
Theorem registry_entries_are_accepted w registry w' :
  buildRegistry h w = (Ok registry, w') ->
  exists repos w0 items,
    searchRepos h w = (Ok repos, w0) /\
    for_of repos w0 = (Ok items, w0) /\
    forall entry,
      In entry (Registry.plugins registry) -> admitted h items entry.
Proof.
  intros (repos & w0 & items & plugins & w1 & Hsearch & Hfor & Hloop & Hfinish)
           %buildRegistry_phases.
  apply finish_returns in Hfinish as (-> & _).
  exists repos, w0, items. repeat split; auto.
  apply List.Forall_forall.
  eapply process_repos_entries; eauto using incl_refl.
Qed.

Lemma turn_skips plugins repo o out :
  not_found out \/ transport_failure out ->
  exists line, turn h plugins repo o out = Some (plugins, line).
Proof.
  intros [(statusCode & content & -> & Hstatus) | [err ->]]; cbn [turn]; eauto.
  apply Z.eqb_neq in Hstatus. rewrite Hstatus. cbn. eauto.
Qed.

(** C4, amended: a repository whose manifest request was sent and is
    answered with a status other than 200, or ends in the ['error'] event of
    the request, adds no entry and does not stop the loop.  Whatever the
    turns before it made of the array ([plugins1]) is handed unchanged to the
    turns after it, which run in the world the skipped turn leaves: one more
    request sent, two more lines printed.  With a memoryless network the loop
    ends exactly as if the repository had not been discovered. *)
Theorem bad_repo_is_skipped plugins before bad after w plugins1 w1 shown o out :
  process_repos h plugins before w = (Ok plugins1, w1) ->
  asked h bad w1 shown o out ->
  not_found out \/ transport_failure out ->
  exists line,
    process_repo h plugins1 bad w1 = (Ok plugins1, skipped shown o line w1) /\
    process_repos h plugins (before ++ bad :: after) w
    = process_repos h plugins1 after (skipped shown o line w1) /\
    (memoryless h ->
     fst (process_repos h plugins (before ++ bad :: after) w)
     = fst (process_repos h plugins (before ++ after) w)).
Proof.
  intros Hbefore Hasked Hout.
  pose proof (process_repo_turn h plugins1 bad w1 shown o out Hasked) as Hturn.
  destruct (turn_skips plugins1 bad o out Hout) as [line Hline].
  rewrite Hline in Hturn. exists line. split; [exact Hturn |].
  assert (Hloop : process_repos h plugins (before ++ bad :: after) w
                  = process_repos h plugins1 after (skipped shown o line w1)).
  { rewrite process_repos_app, Hbefore. cbn [process_repos]. unfold bind.
    now rewrite Hturn. }
  split; [exact Hloop |].
  intros Hnet. rewrite Hloop, process_repos_app, Hbefore.
  now apply process_repos_fst.
Qed.

(** C10: when the manifest request was sent and is answered with status
    200 and a body that decodes to a falsy value, the turn ends as for a
    missing manifest: [fetchPluginManifest] returns the falsy value, the turn
    prints the no-manifest line and leaves the array unchanged, as it does
    on any status other than 200.  The line is not the one of a rejected
    manifest, though [validateManifest] would reject the value as
    malformed: the value never reaches it. *)
Theorem falsy_manifest_is_no_manifest plugins repo w shown o content :
  asked h repo w shown o (Reply 200 content) ->
  truthy (decode content) = false ->
  fetchPluginManifest h repo w = (Ok (decode content), with_sent w o) /\
  process_repo h plugins repo w
  = (Ok plugins, skipped shown o no_manifest_line w) /\
  (forall out, not_found out ->
               turn h plugins repo o out = turn h plugins repo o (Reply 200 content)) /\
  turn h plugins repo o (Reply 200 content) = Some (plugins, no_manifest_line) /\
  validateManifest h (decode content) = Ok (Rejected MalformedDocument).
Proof.
  intros Hasked Hfalsy. pose proof Hasked as (_ & Hreq & Hout).
  assert (Hturn : turn h plugins repo o (Reply 200 content)
                  = Some (plugins, no_manifest_line)).
  { cbn [turn Z.eqb Pos.eqb negb]. unfold judged. now rewrite Hfalsy. }
  split; [| split; [| split; [| split]]].
  - now rewrite (fetchPluginManifest_outcome h repo w o _ Hreq Hout).
  - now rewrite (process_repo_turn h plugins repo w shown o _ Hasked), Hturn.
  - intros out (statusCode & body' & -> & Hstatus%Z.eqb_neq).
    rewrite Hturn. cbn [turn]. now rewrite Hstatus.
  - exact Hturn.
  - unfold validateManifest. now rewrite Hfalsy.
Qed.

End Assembler.

(** ** Entries and the artifact *)

Section Artifact.

Context (h : host).

Lemma or_else_supplied props k fallback :
  or_else (get (VObj props) k) fallback = supplied_or props k fallback.
Proof.
  unfold or_else, supplied_or, get. now destruct (props !! k).
Qed.

(** C9, amended: an accepted manifest is an object, and for each of
    [license], [homepage] and [description] the entry keeps the value the
    manifest holds when that value is truthy; when the key is missing, and
    also when it holds a falsy value, the entry takes the fallback: the
    [spdx_id] of the repository's [license] (or [undefined] when the
    repository has none), the repository's [html_url], the empty string. *)
Theorem entry_defaults url repo manifest :
  validateManifest h manifest = Ok Accepted ->
  exists props,
    manifest = VObj props /\
    Manifest.license (Plugin.manifest (plugin_entry url repo manifest))
    = supplied_or props "license" (get_optional (get repo "license") "spdx_id") /\
    Manifest.homepage (Plugin.manifest (plugin_entry url repo manifest))
    = supplied_or props "homepage" (get repo "html_url") /\
    Manifest.description (Plugin.manifest (plugin_entry url repo manifest))
    = supplied_or props "description" (VStr "").
Proof.
  intros [props ->]%validateManifest_Accepted_object.
  exists props. cbn [plugin_entry Plugin.manifest Manifest.license
                       Manifest.homepage Manifest.description].
  now rewrite !or_else_supplied.
Qed.

Lemma observable_app calls1 calls2 files :
  observable (calls1 ++ calls2) files
  = (observable calls1 files ++ observable calls2 (final calls1 files))%list.
Proof.
  revert files. induction calls1 as [| c calls1 IH]; intros files; [reflexivity |].
  cbn [app observable]. now rewrite IH, <- app_assoc.
Qed.

(** Between the two steps of a [writeFileSync] to the output location, the
    file found there is short of its document. *)
Lemma write_in_place_seen earlier doc :
  ~ never_partial h (earlier ++ [ WriteFileSync (OUTPUT_PATH h) doc ]).
Proof.
  intros Hnever.
  apply (Hnever ∅ (<[OUTPUT_PATH h := Partial]> (final earlier ∅))).
  - now rewrite lookup_empty.
  - rewrite observable_app. apply in_or_app. right. now left.
  - apply lookup_insert_eq.
Qed.

(** C8, amended: a build that returns has written the document straight
    to the output location: having asked whether the output directory
    exists, and created it if not, it makes one [writeFileSync] call on
    [OUTPUT_PATH] and no other change to the file system, with no temporary
    file and no move.  The write is not atomic: in between, a reader can
    find the file at the output location partially written. *)
Theorem registry_written_in_place w registry w' :
  buildRegistry h w = (Ok registry, w') ->
  fs_calls w'
  = (fs_calls w
     ++ ExistsSync (OUTPUT_DIR h)
     :: (if bool_decide (OUTPUT_DIR h ∈ dirs w) then []
         else [ MkdirSync (OUTPUT_DIR h) ])
     ++ [ WriteFileSync (OUTPUT_PATH h) registry ])%list /\
  ~ never_partial h (fs_calls w').
Proof.
  intros (repos & w0 & items & plugins & w1 & Hsearch & Hfor & Hloop & Hfinish)
           %buildRegistry_phases.
  apply searchRepos_frame in Hsearch as [Hc0 Hd0].
  apply process_repos_frame in Hloop as [Hc1 Hd1].
  apply finish_returns in Hfinish as (_ & _ & Hcalls).
  rewrite Hc1, Hd1, Hc0, Hd0 in Hcalls. split; [exact Hcalls |].
  rewrite Hcalls.
  assert (E : forall (a m z : list fs_call) x,
             (a ++ x :: m ++ z = (a ++ x :: m) ++ z)%list).
  { intros. now rewrite <- app_assoc. }
  rewrite E. apply write_in_place_seen.
Qed.

Lemma length_append (s t : string) :
  String.length (s ++ t) = String.length s + String.length t.
Proof.
  induction s as [| c s IH]; [reflexivity |].
  change (S (String.length (s ++ t)) = S (String.length s + String.length t)).
  now f_equal.
Qed.

(** The mechanism the specification names does keep the discipline. *)
Lemma write_then_move_never_partial doc :
  never_partial h (write_then_move h doc).
Proof.
  assert (Hne : (OUTPUT_PATH h ++ ".tmp")%string <> OUTPUT_PATH h).
  { intros E. apply (f_equal String.length) in E.
    rewrite length_append in E. cbn in E. lia. }
  intros files seen Hfiles. unfold write_then_move.
  cbn [observable fs_step fs_after app List.last].
  rewrite lookup_insert_eq. cbn [app List.last].
  intros [<- | [<- | [<- | []]]].
  - now rewrite lookup_insert_ne.
  - now rewrite lookup_insert_ne.
  - now rewrite lookup_insert_eq.
Qed.

(** The bodies that decode to a falsy value. *)
Lemma falsy_body content :
  truthy (decode content) = false <->
  content = Json VUndefined \/ content = Json VNull
  \/ content = Json (VBool false)
  \/ (exists x, content = Json (VNum x)
                /\ (PrimFloat.eqb x 0 = true \/ PrimFloat.eqb x x = false))
  \/ content = Json (VStr "") \/ content = Text "".
Proof.
  split.
  - destruct content as [[| | [] | x | s | |] | raw]; cbn; try discriminate; auto.
    + intros [H%negb_false_iff | H]%andb_false_iff; eauto 8.
    + destruct s; [auto 8 | discriminate].
    + destruct raw; [auto 8 | discriminate].
  - intros [-> | [-> | [-> | [(x & -> & H) | [-> | ->]]]]]; try reflexivity.
    cbn. destruct H as [-> | ->]; [reflexivity | apply andb_false_r].
Qed.

End Artifact.

(** * More properties *)

(** ** More of the validator *)

Section ValidatorMore.

Context (h : host).
Implicit Types (m manifest : value) (fields : list string).

Lemma first_missing_ext m m' fields :
  (forall f, In f fields -> get m f = get m' f) ->
  first_missing m fields = first_missing m' fields.
Proof.
  induction fields as [| g fields IH]; intros Hsame; [reflexivity |].
  cbn. rewrite (Hsame g) by now left.
  destruct (negb (truthy (get m' g))); [reflexivity |].
  apply IH. intros f Hf. apply Hsame. now right.
Qed.

(** The verdict depends on the document through the seven keys it reads. *)
Lemma validateManifest_ext m m' :
  mapping_like m = mapping_like m' ->
  (forall f, In f READ_BY_VALIDATOR -> get m f = get m' f) ->
  validateManifest h m = validateManifest h m'.
Proof.
  intros Hlike Hsame. unfold validateManifest.
  rewrite !mapping_like_guard, Hlike.
  rewrite (first_missing_ext m m' REQUIRED_FIELDS).
  - rewrite (Hsame "type"), (Hsame "permissions"), (Hsame "category");
      [reflexivity | cbn; tauto ..].
  - intros f Hf. apply Hsame. unfold READ_BY_VALIDATOR. apply in_or_app. now left.
Qed.

(** X1: [validateManifest] accepts a document exactly when the five tests
    pass: it is an object or an array, its six required keys hold truthy
    values, its [type] is ['js'] or ['wasm'], its [permissions] are an array,
    and its [category] is falsy or one of the five categories. *)
Theorem validate_accepts_iff m :
  validateManifest h m = Ok Accepted <->
  passes_first_four m = true /\ category_ok m = true.
Proof.
  split; [apply accepted_checks |].
  unfold passes_first_four, required_present.
  rewrite !andb_true_iff. intros [[[[Hm Hreq] Hty] Hperm] Hcat].
  rewrite validateManifest_tests, Hm. cbn [negb].
  apply first_missing_None in Hreq. now rewrite Hreq, Hty, Hperm, Hcat.
Qed.

(** X2: a document that is not an object is always rejected: as malformed
    when it is [null], [undefined], a boolean, a number or a string, and for
    its missing [name] when it is an array, whatever the array holds. *)
Theorem validate_non_object m :
  (forall props, m <> VObj props) ->
  validateManifest h m
  = Ok (Rejected (if isArray m then MissingField "name" else MalformedDocument)).
Proof.
  intros Hm. destruct m as [| | b | x | s | elems | props]; cbn [isArray].
  - reflexivity.
  - reflexivity.
  - unfold validateManifest. cbn [typeof]. now rewrite orb_true_r.
  - unfold validateManifest. cbn [typeof]. now rewrite orb_true_r.
  - unfold validateManifest. cbn [typeof]. now rewrite orb_true_r.
  - reflexivity.
  - now destruct (Hm props).
Qed.

(** X3: when the six required keys of a mapping-like manifest hold truthy
    values and its [type] is ['js'] or ['wasm'], but its [permissions] are
    not an array (a string, a number, an object), the manifest is rejected
    with [PermissionsNotArray], whatever its [category]. *)
Theorem validate_permissions_not_array m :
  mapping_like m = true ->
  required_present m = true ->
  includes VALID_TYPES (get m "type") = true ->
  isArray (get m "permissions") = false ->
  validateManifest h m = Ok (Rejected PermissionsNotArray).
Proof.
  intros Hm Hreq Hty Hperm. rewrite validateManifest_tests, Hm. cbn [negb].
  apply first_missing_None in Hreq. now rewrite Hreq, Hty, Hperm.
Qed.

Lemma get_insert_ne props k v f :
  k <> f -> get (VObj (<[k := v]> props)) f = get (VObj props) f.
Proof. intros Hne. cbn. now rewrite lookup_insert_ne. Qed.

Lemma get_delete_ne props k f :
  k <> f -> get (VObj (delete k props)) f = get (VObj props) f.
Proof. intros Hne. cbn. now rewrite lookup_delete_ne. Qed.

(** X4: the verdict does not depend on any key other than the six required
    ones and [category]: setting such a key, to any value, or removing it,
    leaves what [validateManifest] returns or throws unchanged. *)
Theorem validate_ignores_other_keys props k v :
  ~ In k READ_BY_VALIDATOR ->
  validateManifest h (VObj (<[k := v]> props)) = validateManifest h (VObj props) /\
  validateManifest h (VObj (delete k props)) = validateManifest h (VObj props).
Proof.
  intros Hk.
  split; apply validateManifest_ext; try reflexivity; intros f Hf;
    [apply get_insert_ne | apply get_delete_ne]; congruence.
Qed.

(** X5: the object [validateManifest] returns carries an [error] exactly
    when it is not [valid]; and when the validator does not return, it has
    thrown the [TypeError] of a conversion. *)
Theorem validation_error_iff_invalid m :
  match validateManifest h m with
  | Ok v =>
      (valid v = true /\ error v = None)
      \/ (valid v = false /\ exists reason, error v = Some reason)
  | Throw err => err = unconvertible
  | Pending => False
  end.
Proof.
  destruct (validateManifest_cases h m) as [(v & -> & Hv) | ->]; [exact Hv | reflexivity].
Qed.

(** X25: the validator throws in two places only, where it builds a
    message from a value of the manifest that cannot be converted: the
    [type], when the six required keys are truthy and the type is not a
    valid one; the [category], when the first four tests pass and the
    category is truthy and not a valid one. *)
Theorem validate_throws_iff m err :
  validateManifest h m = Throw err <->
  mapping_like m = true /\ required_present m = true /\
  ((includes VALID_TYPES (get m "type") = false
    /\ to_string h (get m "type") = Throw err)
   \/ (includes VALID_TYPES (get m "type") = true
       /\ isArray (get m "permissions") = true
       /\ category_ok m = false
       /\ to_string h (get m "category") = Throw err)).
Proof.
  rewrite validateManifest_tests. unfold required_present.
  destruct (mapping_like m); cbn [negb];
    [| split; [discriminate | now intros [? _]]].
  destruct (first_missing m REQUIRED_FIELDS) as [f |] eqn:Hreq.
  { split; [discriminate |]. intros (_ & Hall & _).
    apply first_missing_None in Hall. congruence. }
  apply first_missing_None in Hreq. rewrite Hreq.
  destruct (includes VALID_TYPES (get m "type")); cbn [negb].
  - destruct (isArray (get m "permissions")); cbn [negb].
    + destruct (category_ok m); cbn [negb].
      * split; [discriminate |]. intros (_ & _ & [[? _] | (_ & _ & ? & _)]); discriminate.
      * destruct (to_string h (get m "category")) as [s | e |]; cbn [then_].
        -- split; [discriminate |].
           intros (_ & _ & [[? _] | (_ & _ & _ & ?)]); discriminate.
        -- split.
           ++ intros [= ->]. repeat split. right. repeat split.
           ++ intros (_ & _ & [[? _] | (_ & _ & _ & ?)]); [discriminate | congruence].
        -- split; [discriminate |].
           intros (_ & _ & [[? _] | (_ & _ & _ & ?)]); discriminate.
    + split; [discriminate |]. intros (_ & _ & [[? _] | (_ & ? & _)]); discriminate.
  - destruct (to_string h (get m "type")) as [s | e |]; cbn [then_].
    + split; [discriminate |].
      intros (_ & _ & [[_ ?] | (? & _)]); discriminate.
    + split.
      * intros [= ->]. repeat split. left. repeat split.
      * intros (_ & _ & [[_ ?] | (? & _)]); [congruence | discriminate].
    + split; [discriminate |].
      intros (_ & _ & [[_ ?] | (? & _)]); discriminate.
Qed.

End ValidatorMore.

(** ** More of discovery and of the build *)

Section BuildMore.

Context (h : host).
Implicit Types (w : world) (repo manifest : value) (plugins : list Plugin.t).

(** X6: an entry carries nothing of the manifest beyond the thirteen keys
    [plugin_entry] reads: setting any other key of the manifest (a
    [min_version], say) to any value leaves the entry unchanged. *)
Theorem entry_ignores_other_keys url repo props k v :
  ~ In k READ_BY_ENTRY ->
  plugin_entry url repo (VObj (<[k := v]> props)) = plugin_entry url repo (VObj props).
Proof.
  intros Hk. unfold plugin_entry.
  rewrite !get_insert_ne by (intros ->; apply Hk; cbn; tauto).
  reflexivity.
Qed.

(** X7: when the listing request is answered with a status other than
    200, the build stops there: [buildRegistry] throws the error
    ['GitHub API error: <status>'], having sent that one request and made no
    call to the file system, and the process exits with code 1. *)
Theorem listing_refused_aborts w statusCode content :
  answered h w (search_options h) (Reply statusCode content) ->
  statusCode <> 200%Z ->
  buildRegistry h w = (Throw (api_error statusCode), searched h w) /\
  sent (searched h w) = (sent w ++ [search_options h])%list /\
  fs_calls (searched h w) = fs_calls w /\
  fst (main h w) = Some 1%Z.
Proof.
  intros [Hsend Hnet] Hstatus%Z.eqb_neq.
  assert (Hrun : buildRegistry h w = (Throw (api_error statusCode), searched h w)).
  { apply build_search_throws. now rewrite searchRepos_outcome, Hsend, Hnet, Hstatus. }
  repeat split; [exact Hrun | exact (main_throws _ _ _ _ Hrun)].
Qed.

(** X8: when the listing request ends in the ['error'] event of the
    request, the build stops there: [buildRegistry] throws the error of the
    request, having sent it once and made no call to the file system, and
    the process exits with code 1. *)
Theorem listing_unreachable_aborts w err :
  answered h w (search_options h) (Failure err) ->
  buildRegistry h w = (Throw err, searched h w) /\
  sent (searched h w) = (sent w ++ [search_options h])%list /\
  fs_calls (searched h w) = fs_calls w /\
  fst (main h w) = Some 1%Z.
Proof.
  intros [Hsend Hnet].
  assert (Hrun : buildRegistry h w = (Throw err, searched h w)).
  { apply build_search_throws. now rewrite searchRepos_outcome, Hsend, Hnet. }
  repeat split; [exact Hrun | exact (main_throws _ _ _ _ Hrun)].
Qed.

(** X9: when the listing request is answered with status 200 and the body
    [null], reading [total_count] throws a [TypeError]; nothing catches it,
    so the build stops with no manifest requested and nothing written, and
    the process exits with code 1. *)
Theorem null_listing_aborts w content :
  answered h w (search_options h) (Reply 200 content) ->
  nullish (decode content) = true ->
  buildRegistry h w
  = (Throw (null_read (decode content) "total_count"), searched h w) /\
  exn_name (null_read (decode content) "total_count") = "TypeError" /\
  sent (searched h w) = (sent w ++ [search_options h])%list /\
  fs_calls (searched h w) = fs_calls w /\
  fst (main h w) = Some 1%Z.
Proof.
  intros [Hsend Hnet] Hnull.
  assert (Hrun : buildRegistry h w
                 = (Throw (null_read (decode content) "total_count"), searched h w)).
  { apply build_search_throws.
    rewrite searchRepos_outcome, Hsend, Hnet. cbn [Z.eqb Pos.eqb negb].
    now rewrite Hnull. }
  repeat split; [exact Hrun | exact (main_throws _ _ _ _ Hrun)].
Qed.

(** X10: when the listing request is answered with status 200 and a body
    that holds no truthy [items] (an object without the key, or any text that
    is not JSON) and whose [total_count] can be printed, the build does not
    fail: with a file system that works, it writes and returns a registry
    with no plugin, and the process exits with code 0. *)
Theorem listing_without_items_writes_empty w content shown :
  answered h w (search_options h) (Reply 200 content) ->
  nullish (decode content) = false ->
  to_string h (get (decode content) "total_count") = Ok shown ->
  truthy (get (decode content) "items") = false ->
  no_fault h ->
  exists w',
    buildRegistry h w = (Ok (registry_of h []), w') /\
    sent w' = (sent w ++ [search_options h])%list /\
    In (WriteFileSync (OUTPUT_PATH h) (registry_of h [])) (fs_calls w') /\
    fst (main h w) = Some 0%Z.
Proof.
  intros Hnet Hdata Hshown Hitems Hno.
  destruct (searchRepos_single_request h w content shown Hnet Hdata Hshown)
    as [Hsearch Hsent0].
  unfold or_else in Hsearch. rewrite Hitems in Hsearch.
  destruct (finish_ok h [] (found h shown w) Hno) as (w' & Hfinish & Hsent & Hcalls).
  assert (Hrun : buildRegistry h w = (Ok (registry_of h []), w')).
  { now rewrite (build_after_loop h w [] _ (Ok []) _ Hsearch eq_refl). }
  exists w'. split; [exact Hrun |]. split; [congruence |].
  split; [exact Hcalls | exact (main_returns _ _ _ _ Hrun)].
Qed.

(** X11: when the [items] of the listing are neither an array nor a
    string (a number, [true], an object) and its [total_count] can be
    printed, the [for ... of] throws a [TypeError]: the build stops with no
    manifest requested and nothing written, and the process exits with
    code 1. *)
Theorem items_not_iterable_aborts w content shown :
  answered h w (search_options h) (Reply 200 content) ->
  to_string h (get (decode content) "total_count") = Ok shown ->
  truthy (get (decode content) "items") = true ->
  iterable (get (decode content) "items") = false ->
  buildRegistry h w = (Throw not_iterable, found h shown w) /\
  sent (found h shown w) = (sent w ++ [search_options h])%list /\
  fs_calls (found h shown w) = fs_calls w /\
  fst (main h w) = Some 1%Z.
Proof.
  intros Hnet Hshown Htruthy Hiter.
  assert (Hdata : nullish (decode content) = false).
  { destruct (decode content); try reflexivity; discriminate. }
  destruct (searchRepos_single_request h w content shown Hnet Hdata Hshown)
    as [Hsearch Hsent0].
  unfold or_else in Hsearch. rewrite Htruthy in Hsearch.
  assert (Hrun : buildRegistry h w = (Throw not_iterable, found h shown w)).
  { rewrite (build_after_search _ _ _ _ Hsearch). unfold bind, for_of.
    destruct (get (decode content) "items"); try discriminate; reflexivity. }
  repeat split; [exact Hrun | exact (main_throws _ _ _ _ Hrun)].
Qed.

(** X12: how the loop of [buildRegistry] can end.  It throws only what the
    line that announces an item throws, outside the [try]: on an item that
    is [null] or [undefined], or whose [full_name] cannot be converted.  It
    waits for ever only on a manifest request that never ends.  And it
    returns whenever every item can be announced and every request ends,
    whatever the requests are answered. *)
Theorem loop_outcomes plugins items w :
  (forall err w',
     process_repos h plugins items w = (Throw err, w') ->
     exists repo, In repo items /\ announce h repo = Throw err) /\
  (forall w',
     process_repos h plugins items w = (Pending, w') ->
     exists repo o before,
       In repo items /\ repo_request h repo = Ok o /\ net h before o = Stalled) /\
  (responsive h -> Forall (announceable h) items ->
   exists out w', process_repos h plugins items w = (Ok out, w')).
Proof.
  split; [| split].
  - intros err w'. apply process_repos_throws.
  - intros w'. apply process_repos_pending.
  - intros Hnet Hall. now apply process_repos_total.
Qed.

(** X13: one item that cannot be announced fails the whole build: with an
    item that is [null], or whose [full_name] cannot be converted, among the
    [items] of the listing, [buildRegistry] does not return and nothing is
    written, whatever the other items are.  When the requests of the items
    before it all end, the build throws what the announcing line throws and
    the process exits with code 1. *)
Theorem bad_item_fails_build w content before repo after shown err :
  answered h w (search_options h) (Reply 200 content) ->
  get (decode content) "items" = VArr (before ++ repo :: after) ->
  to_string h (get (decode content) "total_count") = Ok shown ->
  announce h repo = Throw err ->
  (forall registry w', buildRegistry h w <> (Ok registry, w')) /\
  fs_calls (snd (buildRegistry h w)) = fs_calls w /\
  (responsive h -> Forall (announceable h) before ->
   exists w',
     buildRegistry h w = (Throw err, w') /\
     sent w' = (sent w ++ search_options h :: requests h before)%list /\
     fst (main h w) = Some 1%Z).
Proof.
  intros Hnet Hitems Hshown Hthrow.
  pose proof (listing_items h w content _ shown Hnet Hitems Hshown) as Hsearch.
  destruct (process_repos h [] (before ++ repo :: after) (found h shown w))
    as [r w1] eqn:Hloop.
  pose proof (build_after_loop h w _ _ r w1 Hsearch Hloop) as Hrun.
  assert (Hin : In repo (before ++ repo :: after)).
  { apply in_or_app. right. now left. }
  assert (Hnot : forall out, r <> Ok out).
  { intros out ->.
    exact (process_repos_stopped h [] _ _ repo err out w1 Hin Hthrow Hloop). }
  split; [| split].
  - intros registry w'. rewrite Hrun.
    destruct r as [out | e |]; try discriminate. now destruct (Hnot out).
  - rewrite Hrun. apply process_repos_frame in Hloop as [Hc _].
    destruct r as [out | e |]; [now destruct (Hnot out) | exact Hc | exact Hc].
  - intros Hresp Hall.
    destruct (process_repos_total h [] before (found h shown w) Hresp Hall)
      as (plugins1 & w0 & Hbefore).
    rewrite process_repos_app, Hbefore in Hloop. cbn [process_repos] in Hloop.
    unfold bind in Hloop. rewrite process_repo_cases, Hthrow in Hloop.
    injection Hloop as <- <-.
    exists w0. repeat split; [exact Hrun | | exact (main_throws _ _ _ _ Hrun)].
    rewrite (process_repos_sent h _ _ _ _ _ Hbefore). cbn.
    now rewrite <- app_assoc.
Qed.

(** X14: a repository whose manifest request was sent and is answered
    with status 200 and a truthy document on which [validateManifest]
    returns a rejection adds no entry: the turn prints the reason of the
    rejection and ends with the array unchanged. *)
Theorem rejected_manifest_is_skipped plugins repo w shown o content v :
  asked h repo w shown o (Reply 200 content) ->
  truthy (decode content) = true ->
  validateManifest h (decode content) = Ok v ->
  valid v = false ->
  process_repo h plugins repo w = (Ok plugins, skipped shown o (invalid_line v) w).
Proof.
  intros Hasked Htruthy Hv Hvalid.
  rewrite (process_repo_turn h plugins repo w shown o _ Hasked).
  cbn [turn Z.eqb Pos.eqb negb]. unfold judged.
  rewrite Htruthy, Hv. cbn [negb then_]. now rewrite Hvalid.
Qed.

(** X15: a [plugin.json] that was requested and served with status 200
    and is not an object or an array (text that is not JSON and not empty, a
    JSON number, string or [true]) is reported as ['Invalid JSON'] and adds
    no entry. *)
Theorem non_object_manifest_is_invalid_json plugins repo w shown o content :
  asked h repo w shown o (Reply 200 content) ->
  truthy (decode content) = true ->
  mapping_like (decode content) = false ->
  process_repo h plugins repo w
  = (Ok plugins, skipped shown o "  ❌ Invalid manifest: Invalid JSON" w).
Proof.
  intros Hasked Htruthy Hlike.
  rewrite (process_repo_turn h plugins repo w shown o _ Hasked).
  cbn [turn Z.eqb Pos.eqb negb]. unfold judged.
  rewrite Htruthy, validateManifest_tests, Hlike. reflexivity.
Qed.

(** X16: a repository whose manifest request was sent and is answered
    with status 200 and a document that [validateManifest] accepts and whose
    [name] can be printed adds exactly one entry, at the end of the array:
    the entry built from that repository and that document, with the path
    of the request in its [manifest_url]. *)
Theorem accepted_manifest_appends plugins repo w shown o content name :
  asked h repo w shown o (Reply 200 content) ->
  validateManifest h (decode content) = Ok Accepted ->
  to_string h (get (decode content) "name") = Ok name ->
  process_repo h plugins repo w
  = (Ok (plugins ++ [plugin_entry (raw_url (path o)) repo (decode content)])%list,
     skipped shown o (valid_line name) w).
Proof.
  intros Hasked Hok Hname.
  rewrite (process_repo_turn h plugins repo w shown o _ Hasked).
  cbn [turn Z.eqb Pos.eqb negb]. unfold judged.
  destruct (validateManifest_Accepted_object _ _ Hok) as [props Hobj].
  rewrite Hok, Hname, Hobj. reflexivity.
Qed.

(** X23: what the validator throws is caught by the turn: a manifest that
    was served with status 200 and on which [validateManifest] throws (its
    [type] or its [category] cannot be converted) adds no entry, and the
    turn ends on the line of the [catch], not on the line of a rejected
    manifest. *)
Theorem validator_throw_is_caught plugins repo w shown o content err :
  asked h repo w shown o (Reply 200 content) ->
  truthy (decode content) = true ->
  validateManifest h (decode content) = Throw err ->
  err = unconvertible /\
  process_repo h plugins repo w = (Ok plugins, skipped shown o (error_line err) w).
Proof.
  intros Hasked Htruthy Hthrow. split.
  - pose proof (validation_throws := validateManifest_cases h (decode content)).
    destruct validation_throws as [(v & Hv & _) | Hv]; congruence.
  - rewrite (process_repo_turn h plugins repo w shown o _ Hasked).
    cbn [turn Z.eqb Pos.eqb negb]. unfold judged.
    now rewrite Htruthy, Hthrow.
Qed.

(** X24: an accepted manifest whose [name] cannot be printed adds no
    entry: the line that announces the plugin is inside the [try] and comes
    before the push, so the turn ends on the line of the [catch] with the
    array unchanged. *)
Theorem unprintable_name_is_caught plugins repo w shown o content err :
  asked h repo w shown o (Reply 200 content) ->
  validateManifest h (decode content) = Ok Accepted ->
  to_string h (get (decode content) "name") = Throw err ->
  process_repo h plugins repo w = (Ok plugins, skipped shown o (error_line err) w).
Proof.
  intros Hasked Hok Hname.
  rewrite (process_repo_turn h plugins repo w shown o _ Hasked).
  cbn [turn Z.eqb Pos.eqb negb]. unfold judged.
  destruct (validateManifest_Accepted_object _ _ Hok) as [props Hobj].
  rewrite Hok, Hname, Hobj. reflexivity.
Qed.

(** X26: a repository for which no request can be sent is skipped with
    nothing sent: when its [default_branch] cannot be converted, or
    [https.request] refuses the path made of its [full_name] and
    [default_branch], the error is thrown inside the [try], and the turn
    ends on the line of the [catch] with the array unchanged. *)
Theorem unsendable_request_is_skipped plugins repo w shown err :
  announce h repo = Ok shown ->
  repo_request h repo = Throw err
  \/ (exists o, repo_request h repo = Ok o /\ refusal o = Some err) ->
  process_repo h plugins repo w = (Ok plugins, unsent shown (error_line err) w) /\
  sent (unsent shown (error_line err) w) = sent w.
Proof.
  intros Hshown Hreq. split; [| reflexivity].
  rewrite process_repo_cases, Hshown.
  destruct Hreq as [-> | (o & -> & ->)]; reflexivity.
Qed.

(** *** The build as a whole *)

Lemma requests_shape items :
  Forall (fun o => hostname o = "raw.githubusercontent.com"
                   /\ headers o = [ ("User-Agent", Some "Audion-Registry-Builder") ]
                   /\ refusal o = None)
         (requests h items).
Proof.
  induction items as [| repo items IH]; cbn [requests]; [constructor |].
  destruct (repo_request h repo) as [o | |] eqn:Hreq; try exact IH.
  destruct (refusal o) eqn:Hsend; [exact IH |].
  constructor; [| exact IH].
  rewrite (repo_request_shape h _ _ Hreq) in Hsend |- *. now repeat split.
Qed.

Lemma requests_length items : List.length (requests h items) <= List.length items.
Proof.
  induction items as [| repo items IH]; cbn [requests List.length]; [lia |].
  destruct (repo_request h repo) as [o | |]; try lia.
  destruct (refusal o); cbn [List.length]; lia.
Qed.

(** X18: a build that returns has sent the listing request and then, in
    the order of discovery, one request for each discovered item for which
    a request can be sent, and nothing else: no item is asked for twice.
    Every manifest request goes to [raw.githubusercontent.com] with the
    [User-Agent] header alone: the token of the environment is never sent
    there. *)
Theorem build_requests w registry w' :
  buildRegistry h w = (Ok registry, w') ->
  exists repos w0 items,
    searchRepos h w = (Ok repos, w0) /\
    for_of repos w0 = (Ok items, w0) /\
    sent w' = (sent w ++ search_options h :: requests h items)%list /\
    List.length (requests h items) <= List.length items /\
    Forall (fun o => hostname o = "raw.githubusercontent.com"
                     /\ headers o = [ ("User-Agent", Some "Audion-Registry-Builder") ])
           (requests h items).
Proof.
  intros (repos & w0 & items & plugins & w1 & Hsearch & Hfor & Hloop & Hfinish)
           %buildRegistry_phases.
  exists repos, w0, items. repeat split; auto.
  - rewrite (finish_sent _ _ _ _ _ Hfinish), (process_repos_sent _ _ _ _ _ _ Hloop),
      (searchRepos_sent _ _ _ _ Hsearch).
    now rewrite <- app_assoc.
  - apply requests_length.
  - eapply List.Forall_impl; [| apply requests_shape]. cbn. tauto.
Qed.

Lemma accepted_auto_discovered url repo manifest :
  validateManifest h manifest = Ok Accepted ->
  auto_discovered (plugin_entry url repo manifest).
Proof.
  intros [Hfour Hcat]%accepted_checks.
  unfold passes_first_four, required_present in Hfour. cbn [forallb REQUIRED_FIELDS] in Hfour.
  rewrite !andb_true_iff in Hfour.
  destruct Hfour as [[[_ (Hn & Hv & Ha & _ & He & _ & _)] Hty] Hperm].
  unfold auto_discovered, admissible, plugin_entry.
  cbn [Plugin.manifest Plugin.curated Plugin.verified Plugin.downloads Plugin.repo
       Plugin.manifest_url Manifest.name Manifest.version Manifest.author
       Manifest.entry Manifest.type Manifest.permissions Manifest.category
       Manifest.repo Manifest.manifest_url].
  unfold category_ok in Hcat. rewrite Hn, Hv, Ha, He, Hty, Hperm, Hcat.
  repeat split.
Qed.

(** X19: every entry of the document a build returns meets the tests of
    the validator on its own fields (truthy [name], [version], [author] and
    [entry], a [type] of ['js'] or ['wasm'], [permissions] that are an array,
    a [category] that is falsy or one of the five), is flagged neither
    curated nor verified, counts no download, and names the same [repo] and
    [manifest_url] inside and outside its [manifest]. *)
Theorem registry_entries_auto_discovered w registry w' :
  buildRegistry h w = (Ok registry, w') ->
  Forall auto_discovered (Registry.plugins registry).
Proof.
  intros (repos & w0 & items & plugins & w1 & _ & _ & Hloop & Hfinish)
           %buildRegistry_phases.
  apply finish_returns in Hfinish as (-> & _).
  assert (Hall : Forall (admitted h items) plugins).
  { eapply process_repos_entries; eauto using incl_refl. }
  eapply List.Forall_impl; [| exact Hall].
  intros entry (repo & manifest & _ & _ & o & _ & _ & Hok & _ & ->).
  now apply accepted_auto_discovered.
Qed.

(** X20: once the listing is there, no manifest can fail the build.  When
    the listing request is answered with status 200, a [total_count] that
    can be printed and an array of items each of which can be announced,
    every request that is sent ends, and the file system works, then
    [buildRegistry] returns a registry, whatever the manifest requests are
    answered: the registry holds the version ['1.0.0'] and the time of the
    build, it is written to the output location, and the process exits with
    code 0. *)
Theorem build_tolerates_items w content items shown :
  answered h w (search_options h) (Reply 200 content) ->
  get (decode content) "items" = VArr items ->
  to_string h (get (decode content) "total_count") = Ok shown ->
  Forall (announceable h) items ->
  responsive h ->
  no_fault h ->
  exists plugins w',
    buildRegistry h w = (Ok (registry_of h plugins), w') /\
    In (WriteFileSync (OUTPUT_PATH h) (registry_of h plugins)) (fs_calls w') /\
    sent w' = (sent w ++ search_options h :: requests h items)%list /\
    fst (main h w) = Some 0%Z.
Proof.
  intros Hnet Hitems Hshown Hall Hresp Hno.
  pose proof (listing_items h w content items shown Hnet Hitems Hshown) as Hsearch.
  destruct (process_repos_total h [] items (found h shown w) Hresp Hall)
    as (plugins & w1 & Hloop).
  destruct (finish_ok h plugins w1 Hno) as (w' & Hfinish & Hsent & Hwritten).
  assert (Hrun : buildRegistry h w = (Ok (registry_of h plugins), w')).
  { now rewrite (build_after_loop h w items _ _ _ Hsearch Hloop). }
  exists plugins, w'. repeat split; auto.
  - rewrite Hsent, (process_repos_sent _ _ _ _ _ _ Hloop). cbn.
    now rewrite <- app_assoc.
  - exact (main_returns _ _ _ _ Hrun).
Qed.

(** X21: a registry that cannot be written fails the build, after all the
    work: when the loop has returned and [writeFileSync] throws on the output
    location, every request has been sent, [buildRegistry] throws that
    error, the lines that announce the registry are not printed, and the
    process exits with code 1.  The loop does return when every item can be
    announced and every request ends. *)
Theorem write_failure_is_fatal w content items shown err :
  answered h w (search_options h) (Reply 200 content) ->
  get (decode content) "items" = VArr items ->
  to_string h (get (decode content) "total_count") = Ok shown ->
  Forall (announceable h) items ->
  responsive h ->
  fs_fault h (MkdirSync (OUTPUT_DIR h)) = None ->
  (forall doc, fs_fault h (WriteFileSync (OUTPUT_PATH h) doc) = Some err) ->
  exists plugins w1 w',
    process_repos h [] items (found h shown w) = (Ok plugins, w1) /\
    buildRegistry h w = (Throw err, w') /\
    console w' = console w1 /\
    sent w' = (sent w ++ search_options h :: requests h items)%list /\
    List.last (fs_calls w') (ExistsSync "")
    = WriteFileSync (OUTPUT_PATH h) (registry_of h plugins) /\
    fst (main h w) = Some 1%Z.
Proof.
  intros Hnet Hitems Hshown Hall Hresp Hmk Hwr.
  pose proof (listing_items h w content items shown Hnet Hitems Hshown) as Hsearch.
  destruct (process_repos_total h [] items (found h shown w) Hresp Hall)
    as (plugins & w1 & Hloop).
  destruct (finish_write_fault h plugins w1 err Hmk (Hwr _))
    as (w' & Hfinish & Hconsole & Hsent & Hlast).
  assert (Hrun : buildRegistry h w = (Throw err, w')).
  { now rewrite (build_after_loop h w items _ _ _ Hsearch Hloop). }
  exists plugins, w1, w'. repeat split; auto.
  - rewrite Hsent, (process_repos_sent _ _ _ _ _ _ Hloop). cbn.
    now rewrite <- app_assoc.
  - exact (main_throws _ _ _ _ Hrun).
Qed.

(** X28: without a token the script cannot search.  When [GITHUB_TOKEN] is
    not set, or is empty, the [Authorization] header of the listing request
    is [undefined] and [https.request] throws before anything is sent:
    [buildRegistry] throws that [TypeError], with no request sent and no
    call to the file system, and the process exits with code 1. *)
Theorem token_required w :
  GITHUB_TOKEN h = None \/ GITHUB_TOKEN h = Some "" ->
  let err := TypeError ("Invalid value " ++ dq ++ "undefined" ++ dq
                        ++ " for header " ++ dq ++ "Authorization" ++ dq) in
  buildRegistry h w = (Throw err, with_line w searching_line) /\
  sent (with_line w searching_line) = sent w /\
  fs_calls (with_line w searching_line) = fs_calls w /\
  fst (main h w) = Some 1%Z.
Proof.
  intros Htoken err.
  assert (Hsend : refusal (search_options h) = Some err).
  { unfold refusal, search_options. cbn [path headers].
    destruct Htoken as [-> | ->]; reflexivity. }
  assert (Hrun : buildRegistry h w = (Throw err, with_line w searching_line)).
  { apply build_search_throws. now rewrite searchRepos_outcome, Hsend. }
  repeat split; [exact Hrun | exact (main_throws _ _ _ _ Hrun)].
Qed.

(** X27: a manifest request that never ends stalls the build.  When the
    turns of the items before it have ended and the request of an item was
    sent and neither a response ends nor the request fails, [buildRegistry]
    never settles: the later items are not asked for, nothing is written,
    and the [catch] of the last line does not run. *)
Theorem stalled_request_stalls_build
  w content before repo after shown plugins1 w1 announced o :
  answered h w (search_options h) (Reply 200 content) ->
  get (decode content) "items" = VArr (before ++ repo :: after) ->
  to_string h (get (decode content) "total_count") = Ok shown ->
  process_repos h [] before (found h shown w) = (Ok plugins1, w1) ->
  asked h repo w1 announced o Stalled ->
  buildRegistry h w = (Pending, waiting announced o w1) /\
  main h w = (None, waiting announced o w1) /\
  sent (waiting announced o w1)
  = (sent w ++ search_options h :: requests h before ++ [o])%list /\
  fs_calls (waiting announced o w1) = fs_calls w.
Proof.
  intros Hnet Hitems Hshown Hbefore Hasked.
  pose proof (listing_items h w content _ shown Hnet Hitems Hshown) as Hsearch.
  assert (Hloop : process_repos h [] (before ++ repo :: after) (found h shown w)
                  = (Pending, waiting announced o w1)).
  { rewrite process_repos_app, Hbefore. cbn [process_repos]. unfold bind.
    now rewrite (process_repo_turn h plugins1 repo w1 announced o _ Hasked). }
  pose proof (build_after_loop h w _ _ _ _ Hsearch Hloop) as Hrun. cbn in Hrun.
  split; [exact Hrun |]. split; [exact (main_pending _ _ _ Hrun) |]. split.
  - cbn [waiting with_sent with_line sent].
    rewrite (process_repos_sent _ _ _ _ _ _ Hbefore). cbn.
    now rewrite <- !app_assoc.
  - apply process_repos_frame in Hbefore as [Hc _]. exact Hc.
Qed.

End BuildMore.

(** * The example worlds *)

Section OnExamples.

Import Examples.

Lemma named_absent full_name repo items :
  existsb (named full_name) items = false ->
  named full_name repo = true ->
  ~ In repo items.
Proof.
  intros Hnone Hrepo Hin.
  assert (existsb (named full_name) items = true) as Hsome.
  { apply existsb_exists. eauto. }
  congruence.
Qed.

(** ** The validator on the example manifests *)

Lemma unversioned_reports_first_missing :
  mapping_like unversioned = true /\
  (exists g, In g REQUIRED_FIELDS /\ truthy (get unversioned g) = false) /\
  exists before f after,
    REQUIRED_FIELDS = (before ++ f :: after)%list /\
    (forall g, In g before -> truthy (get unversioned g) = true) /\
    truthy (get unversioned f) = false /\
    validateManifest steady unversioned = Ok (Rejected (MissingField f)).
Proof.
  assert (Hm : mapping_like unversioned = true) by reflexivity.
  assert (Hg : exists g, In g REQUIRED_FIELDS /\ truthy (get unversioned g) = false).
  { exists "entry". split; [cbn; tauto | vm_compute; reflexivity]. }
  exact (conj Hm (conj Hg
           (validate_reports_first_missing_field steady unversioned Hm Hg))).
Defined.

Example unversioned_reports_version :
  validateManifest steady unversioned = Ok (Rejected (MissingField "version")).
Proof. vm_compute. reflexivity. Qed.

(** C7 fails as stated: the [permissions] of [harmless] are empty, and so
    is the [name] of [unnamed]; an empty array and an empty object are
    truthy, no field is reported missing, and both manifests are accepted. *)
Lemma empty_values_accepted :
  mapping_like harmless = true /\
  get harmless "permissions" = VArr [] /\
  validateManifest steady harmless = Ok Accepted /\
  mapping_like unnamed = true /\
  get unnamed "name" = VObj ∅ /\
  validateManifest steady unnamed = Ok Accepted /\
  forall f,
    validateManifest steady harmless <> Ok (Rejected (MissingField f)) /\
    validateManifest steady unnamed <> Ok (Rejected (MissingField f)).
Proof.
  assert (Hh : validateManifest steady harmless = Ok Accepted)
    by (vm_compute; reflexivity).
  assert (Hu : validateManifest steady unnamed = Ok Accepted)
    by (vm_compute; reflexivity).
  repeat split; try (vm_compute; reflexivity); try assumption.
  - rewrite Hh. discriminate.
  - rewrite Hu. discriminate.
Qed.

(** An array passes the first test and fails on the first field. *)
Example array_reports_name :
  validateManifest steady (VArr [ acme_manifest ])
  = Ok (Rejected (MissingField "name")).
Proof. vm_compute. reflexivity. Qed.

Lemma mistyped_reports_type :
  mapping_like mistyped = true /\
  required_present mistyped = true /\
  includes VALID_TYPES (get mistyped "type") = false /\
  validateManifest steady mistyped =
    (shown <~ to_string steady (get mistyped "type") ;
     Ok (Rejected (InvalidType shown)))%result.
Proof.
  assert (Hm : mapping_like mistyped = true) by reflexivity.
  assert (Hreq : required_present mistyped = true) by (vm_compute; reflexivity).
  assert (Hty : includes VALID_TYPES (get mistyped "type") = false)
    by (vm_compute; reflexivity).
  exact (conj Hm (conj Hreq (conj Hty
           (validate_invalid_type steady mistyped Hm Hreq Hty)))).
Defined.

(** The type that converts is reported; the type that does not is
    thrown. *)
Example mistyped_rejected :
  validateManifest steady mistyped = Ok (Rejected (InvalidType "native")) /\
  error_text (Rejected (InvalidType "native")) = "Invalid type: native".
Proof. split; vm_compute; reflexivity. Qed.

Example opaque_type_throws :
  get opaque_type "type" = VObj {[ "toString" := VNum 1 ]} /\
  validateManifest steady opaque_type = Throw unconvertible.
Proof. split; vm_compute; reflexivity. Qed.

(** C5 fails as stated: [typed_only] holds a [type] outside [{js, wasm}],
    and is rejected for its missing [name], not for its type. *)
Lemma type_outside_but_field_missing :
  get typed_only "type" = VStr "native" /\
  includes VALID_TYPES (get typed_only "type") = false /\
  validateManifest steady typed_only = Ok (Rejected (MissingField "name")) /\
  validateManifest steady typed_only <> Ok (Rejected (InvalidType "native")).
Proof.
  repeat split; try (vm_compute; reflexivity).
  vm_compute. discriminate.
Qed.

Lemma games_reports_category :
  passes_first_four games = true /\
  validateManifest steady games =
    if truthy (get games "category")
    then if includes VALID_CATEGORIES (get games "category")
         then Ok Accepted
         else (shown <~ to_string steady (get games "category") ;
               Ok (Rejected (InvalidCategory shown)))%result
    else Ok Accepted.
Proof.
  assert (Hfour : passes_first_four games = true) by (vm_compute; reflexivity).
  exact (conj Hfour (validate_category steady games Hfour)).
Defined.

Example games_rejected :
  validateManifest steady games = Ok (Rejected (InvalidCategory "games")) /\
  error_text (Rejected (InvalidCategory "games")) = "Invalid category: games".
Proof. split; vm_compute; reflexivity. Qed.

(** C6 fails as stated: [uncategorised] passes the first four tests and
    holds the key [category], with the empty string, which is none of the
    five categories; it is accepted. *)
Lemma empty_category_accepted :
  passes_first_four uncategorised = true /\
  (exists props,
      uncategorised = VObj props /\ props !! "category" = Some (VStr "")) /\
  includes VALID_CATEGORIES (VStr "") = false /\
  validateManifest steady uncategorised = Ok Accepted /\
  validateManifest steady uncategorised <> Ok (Rejected (InvalidCategory "")).
Proof.
  repeat split; try (vm_compute; reflexivity).
  - eexists. split; [reflexivity |]. vm_compute. reflexivity.
  - vm_compute. discriminate.
Qed.

(** ** Entries on the example manifests *)

Lemma acme_entry_defaults :
  validateManifest steady acme_manifest = Ok Accepted /\
  exists props,
    acme_manifest = VObj props /\
    Manifest.license (Plugin.manifest (plugin_entry acme_url acme acme_manifest))
    = supplied_or props "license" (get_optional (get acme "license") "spdx_id") /\
    Manifest.homepage (Plugin.manifest (plugin_entry acme_url acme acme_manifest))
    = supplied_or props "homepage" (get acme "html_url") /\
    Manifest.description (Plugin.manifest (plugin_entry acme_url acme acme_manifest))
    = supplied_or props "description" (VStr "").
Proof.
  assert (Hok : validateManifest steady acme_manifest = Ok Accepted)
    by (vm_compute; reflexivity).
  exact (conj Hok (entry_defaults steady acme_url acme acme_manifest Hok)).
Defined.

(** None of the three supplied, and all three supplied. *)
Example acme_entry_inherits :
  Manifest.license (Plugin.manifest (plugin_entry acme_url acme acme_manifest))
  = VStr "MIT" /\
  Manifest.homepage (Plugin.manifest (plugin_entry acme_url acme acme_manifest))
  = VStr "https://github.com/acme/my-plugin" /\
  Manifest.description (Plugin.manifest (plugin_entry acme_url acme acme_manifest))
  = VStr "".
Proof. repeat split; vm_compute; reflexivity. Qed.

Example complete_entry_keeps :
  Manifest.license (Plugin.manifest (plugin_entry acme_url acme complete))
  = VStr "GPL-3.0" /\
  Manifest.homepage (Plugin.manifest (plugin_entry acme_url acme complete))
  = VStr "https://acme.example/plugin" /\
  Manifest.description (Plugin.manifest (plugin_entry acme_url acme complete))
  = VStr "Plays things".
Proof. repeat split; vm_compute; reflexivity. Qed.

(** C9 fails as stated: [modest] is accepted and supplies the three
    optional keys, with the values [0], the empty string and [false]; the
    entry keeps none of them. *)
Lemma falsy_optional_values_replaced :
  validateManifest steady modest = Ok Accepted /\
  get modest "description" = VNum 0 /\
  Manifest.description (Plugin.manifest (plugin_entry acme_url acme modest))
  = VStr "" /\
  get modest "homepage" = VStr "" /\
  Manifest.homepage (Plugin.manifest (plugin_entry acme_url acme modest))
  = VStr "https://github.com/acme/my-plugin" /\
  get modest "license" = VBool false /\
  Manifest.license (Plugin.manifest (plugin_entry acme_url acme modest))
  = VStr "MIT".
Proof. repeat split; vm_compute; reflexivity. Qed.

(** ** Discovery on the example worlds *)

Example paged_single_request :
  searchRepos paged init
  = (Ok (VArr (listing_page crowd 100 1)), found paged "101" init) /\
  sent (found paged "101" init) = [ search_options paged ].
Proof.
  assert (Hnet : answered paged init (search_options paged)
                   (Reply 200 (listing 101 (listing_page crowd 100 1)))).
  { split; [vm_compute; reflexivity | reflexivity]. }
  assert (Hdata : nullish (decode (listing 101 (listing_page crowd 100 1))) = false)
    by reflexivity.
  assert (Hshown : to_string paged
                     (get (decode (listing 101 (listing_page crowd 100 1)))
                          "total_count") = Ok "101") by (vm_compute; reflexivity).
  destruct (searchRepos_single_request paged init _ _ Hnet Hdata Hshown)
    as [Hsearch Hsent].
  split; [| exact Hsent]. rewrite Hsearch. reflexivity.
Qed.

(** C1 does not hold of the script: every item of every page should reach
    the loop, and the README has the script search for all repositories with
    the topic.  The listing of [paged] spans two pages, and the repository on
    the second page is there for the asking; [searchRepos] announces the 101
    repositories of the total count and returns the 100 of the first page,
    in which that repository is not, and the whole build sends the one
    listing request. *)
Lemma second_page_never_requested :
  In straggler (listing_page crowd 100 2) /\
  net paged [ search_options paged ] second_page
  = Reply 200 (listing 101 (listing_page crowd 100 2)) /\
  fst (searchRepos paged init) = Ok (VArr (listing_page crowd 100 1)) /\
  ~ In straggler (listing_page crowd 100 1) /\
  sent (snd (searchRepos paged init)) = [ search_options paged ] /\
  console (snd (searchRepos paged init))
  = [ "Searching GitHub for repos with topic: audion-plugins";
      "Found 101 repos" ] /\
  filter is_search (sent (snd (buildRegistry paged init))) = [ search_options paged ].
Proof.
  split; [| split; [| split; [| split; [| split; [| split]]]]].
  - left. reflexivity.
  - reflexivity.
  - reflexivity.
  - apply (named_absent "org/plugin-101"); vm_compute; reflexivity.
  - reflexivity.
  - vm_compute. reflexivity.
  - vm_compute. reflexivity.
Qed.

(** ** The fetcher and the loop on the example worlds *)

Lemma flaky_fetch_thrown :
  asked flaky acme init "acme/my-plugin" acme_request
    (Failure (Error "read ECONNRESET")) /\
  httpsGet flaky acme_request init
  = (Throw (Error "read ECONNRESET"), with_sent init acme_request) /\
  fetchPluginManifest flaky acme init
  = (Throw (Error "read ECONNRESET"), with_sent init acme_request) /\
  process_repo flaky [] acme init
  = (Ok [], skipped "acme/my-plugin" acme_request
              (error_line (Error "read ECONNRESET")) init) /\
  sent (skipped "acme/my-plugin" acme_request
          (error_line (Error "read ECONNRESET")) init)
  = (sent init ++ [ acme_request ])%list.
Proof.
  assert (Hasked : asked flaky acme init "acme/my-plugin" acme_request
                     (Failure (Error "read ECONNRESET"))).
  { repeat split; vm_compute; reflexivity. }
  exact (conj Hasked
           (transport_failure_not_retried flaky [] acme init _ _ _ Hasked)).
Defined.

(** C2 fails as stated: on [flaky] the one request for [acme]'s manifest
    fails and the same request, sent again, would be answered with a manifest
    the validator accepts.  [fetchPluginManifest] throws instead of sending it
    again, and the build ends with no entry, having asked for the manifest
    once. *)
Lemma failed_fetch_not_retried :
  fetchPluginManifest flaky acme init
  = (Throw (Error "read ECONNRESET"), with_sent init acme_request) /\
  net flaky [ acme_request ] acme_request = Reply 200 (Json acme_manifest) /\
  validateManifest flaky acme_manifest = Ok Accepted /\
  fst (buildRegistry flaky init) = Ok (empty_registry flaky) /\
  filter (fun o => negb (is_search o)) (sent (snd (buildRegistry flaky init)))
  = [ acme_request ].
Proof. repeat split; vm_compute; reflexivity. Qed.

Lemma steady_is_memoryless : memoryless steady.
Proof. intros before o. reflexivity. Qed.

Lemma steady_entries_accepted :
  buildRegistry steady init = (Ok steady_registry, snd (buildRegistry steady init)) /\
  exists repos w0 items,
    searchRepos steady init = (Ok repos, w0) /\
    for_of repos w0 = (Ok items, w0) /\
    forall entry,
      In entry (Registry.plugins steady_registry) -> admitted steady items entry.
Proof.
  assert (Hrun : buildRegistry steady init
                 = (Ok steady_registry, snd (buildRegistry steady init)))
    by (vm_compute; reflexivity).
  exact (conj Hrun (registry_entries_are_accepted steady init _ _ Hrun)).
Defined.

Lemma ghost_is_skipped :
  process_repos steady [] [] init = (Ok [], init) /\
  asked steady ghost init "ghost/no-manifest" ghost_request
    (Reply 404 (Text "404: Not Found")) /\
  (not_found (Reply 404 (Text "404: Not Found"))
   \/ transport_failure (Reply 404 (Text "404: Not Found"))) /\
  exists line,
    process_repo steady [] ghost init
    = (Ok [], skipped "ghost/no-manifest" ghost_request line init) /\
    process_repos steady [] ([] ++ ghost :: [ acme ]) init
    = process_repos steady [] [ acme ]
        (skipped "ghost/no-manifest" ghost_request line init) /\
    (memoryless steady ->
     fst (process_repos steady [] ([] ++ ghost :: [ acme ]) init)
     = fst (process_repos steady [] ([] ++ [ acme ]) init)).
Proof.
  assert (Hbefore : process_repos steady [] [] init = (Ok [], init)) by reflexivity.
  assert (Hasked : asked steady ghost init "ghost/no-manifest" ghost_request
                     (Reply 404 (Text "404: Not Found"))).
  { repeat split; vm_compute; reflexivity. }
  assert (Hout : not_found (Reply 404 (Text "404: Not Found"))
                 \/ transport_failure (Reply 404 (Text "404: Not Found"))).
  { left. exists 404%Z, (Text "404: Not Found"). split; [reflexivity | discriminate]. }
  exact (conj Hbefore (conj Hasked (conj Hout
           (bad_repo_is_skipped steady [] [] ghost [ acme ] init [] init _ _ _
              Hbefore Hasked Hout)))).
Defined.

Example ghost_leaves_acme :
  fst (process_repos steady [] [ ghost; acme ] init)
  = Ok [ plugin_entry acme_url acme acme_manifest ] /\
  fst (process_repos steady [] [ acme ] init)
  = Ok [ plugin_entry acme_url acme acme_manifest ].
Proof. split; vm_compute; reflexivity. Qed.

(** C4 fails as stated: on [stalled] the response for [ghost]'s manifest
    breaks off after its headers.  The fetch of that one item does not come
    to an end of any kind, so the build never goes on to [acme], whose
    manifest is there and is valid: no request is sent for it, no registry
    is written, and the script gives no exit code. *)
Lemma stalled_fetch_stops_build :
  asked stalled ghost (found stalled "2" init) "ghost/no-manifest" ghost_request
    Stalled /\
  buildRegistry stalled init
  = (Pending, waiting "ghost/no-manifest" ghost_request (found stalled "2" init)) /\
  fst (main stalled init) = None /\
  sent (snd (buildRegistry stalled init)) = [ search_options stalled; ghost_request ] /\
  fs_calls (snd (buildRegistry stalled init)) = [] /\
  fst (process_repos stalled [] [ acme ] init)
  = Ok [ plugin_entry acme_url acme acme_manifest ].
Proof. repeat split; vm_compute; reflexivity. Qed.

(** One repository whose [full_name] cannot be converted aborts a build in
    which [acme] would have been accepted. *)
Example nameless_aborts_build :
  fst (process_repos steady [] [ nameless; acme ] init) = Throw unconvertible /\
  sent (snd (process_repos steady [] [ nameless; acme ] init)) = [].
Proof. split; vm_compute; reflexivity. Qed.

Lemma hollow_is_no_manifest :
  asked hollow acme init "acme/my-plugin" acme_request (Reply 200 (Json VNull)) /\
  truthy (decode (Json VNull)) = false /\
  fetchPluginManifest hollow acme init
  = (Ok (decode (Json VNull)), with_sent init acme_request) /\
  process_repo hollow [] acme init
  = (Ok [], skipped "acme/my-plugin" acme_request no_manifest_line init) /\
  (forall out, not_found out ->
               turn hollow [] acme acme_request out
               = turn hollow [] acme acme_request (Reply 200 (Json VNull))) /\
  turn hollow [] acme acme_request (Reply 200 (Json VNull))
  = Some ([], no_manifest_line) /\
  validateManifest hollow (decode (Json VNull)) = Ok (Rejected MalformedDocument).
Proof.
  assert (Hasked : asked hollow acme init "acme/my-plugin" acme_request
                     (Reply 200 (Json VNull))).
  { repeat split; vm_compute; reflexivity. }
  assert (Hfalsy : truthy (decode (Json VNull)) = false) by reflexivity.
  exact (conj Hasked (conj Hfalsy
           (falsy_manifest_is_no_manifest hollow [] acme init _ _ _ Hasked Hfalsy))).
Defined.

(** ** The artifact on the example worlds *)

Lemma steady_written_in_place :
  buildRegistry steady init = (Ok steady_registry, snd (buildRegistry steady init)) /\
  fs_calls (snd (buildRegistry steady init))
  = (fs_calls init
     ++ ExistsSync (OUTPUT_DIR steady)
     :: (if bool_decide (OUTPUT_DIR steady ∈ dirs init) then []
         else [ MkdirSync (OUTPUT_DIR steady) ])
     ++ [ WriteFileSync (OUTPUT_PATH steady) steady_registry ])%list /\
  ~ never_partial steady (fs_calls (snd (buildRegistry steady init))).
Proof.
  assert (Hrun : buildRegistry steady init
                 = (Ok steady_registry, snd (buildRegistry steady init)))
    by (vm_compute; reflexivity).
  exact (conj Hrun (registry_written_in_place steady init _ _ Hrun)).
Defined.

(** C8 fails as stated: the build on [steady] writes the document with one
    [writeFileSync] on the output location itself; nothing is written
    elsewhere and nothing is moved, and while that call runs a reader can
    find the file at the output location partially written. *)
Lemma steady_write_not_atomic :
  fst (buildRegistry steady init) = Ok steady_registry /\
  fs_calls (snd (buildRegistry steady init))
  = [ ExistsSync (OUTPUT_DIR steady);
      MkdirSync (OUTPUT_DIR steady);
      WriteFileSync (OUTPUT_PATH steady) steady_registry ] /\
  ~ never_partial steady (fs_calls (snd (buildRegistry steady init))).
Proof.
  assert (Hcalls : fs_calls (snd (buildRegistry steady init))
                   = ([ ExistsSync (OUTPUT_DIR steady);
                        MkdirSync (OUTPUT_DIR steady) ]
                      ++ [ WriteFileSync (OUTPUT_PATH steady) steady_registry ])%list)
    by (vm_compute; reflexivity).
  split; [| split].
  - vm_compute. reflexivity.
  - exact Hcalls.
  - rewrite Hcalls. apply write_in_place_seen.
Qed.

End OnExamples.

(** ** More on the example worlds *)

Section OnMoreExamples.

Import Examples.

Lemma steady_is_responsive : responsive steady.
Proof.
  intros before o. unfold steady, host_of. cbn [net].
  destruct (is_search o); [discriminate |].
  destruct (String.eqb (path o) (path acme_request)); discriminate.
Defined.

Lemma array_is_not_malformed :
  (forall props, VArr [ acme_manifest ] <> VObj props) /\
  validateManifest steady (VArr [ acme_manifest ])
  = Ok (Rejected (if isArray (VArr [ acme_manifest ]) then MissingField "name"
                  else MalformedDocument)).
Proof.
  assert (Hm : forall props, VArr [ acme_manifest ] <> VObj props) by discriminate.
  exact (conj Hm (validate_non_object steady _ Hm)).
Defined.

Lemma scalar_permissions_rejected :
  mapping_like scalar_permissions = true /\
  required_present scalar_permissions = true /\
  includes VALID_TYPES (get scalar_permissions "type") = true /\
  isArray (get scalar_permissions "permissions") = false /\
  validateManifest steady scalar_permissions = Ok (Rejected PermissionsNotArray).
Proof.
  assert (Hm : mapping_like scalar_permissions = true) by reflexivity.
  assert (Hreq : required_present scalar_permissions = true)
    by (vm_compute; reflexivity).
  assert (Hty : includes VALID_TYPES (get scalar_permissions "type") = true)
    by (vm_compute; reflexivity).
  assert (Hperm : isArray (get scalar_permissions "permissions") = false)
    by (vm_compute; reflexivity).
  exact (conj Hm (conj Hreq (conj Hty (conj Hperm
           (validate_permissions_not_array steady _ Hm Hreq Hty Hperm))))).
Defined.

Lemma min_version_not_validated :
  ~ In "min_version" READ_BY_VALIDATOR /\
  validateManifest steady (VObj (<["min_version" := VNum 2]> versioned))
  = validateManifest steady (VObj versioned) /\
  validateManifest steady (VObj (delete "min_version" versioned))
  = validateManifest steady (VObj versioned).
Proof.
  assert (Hk : ~ In "min_version" READ_BY_VALIDATOR).
  { cbn. intros H. repeat destruct H as [H | H]; try discriminate H. exact H. }
  exact (conj Hk
           (validate_ignores_other_keys steady versioned "min_version" (VNum 2) Hk)).
Defined.

Example versioned_accepted :
  versioned !! "min_version" = Some (VStr "2.0.0") /\
  validateManifest steady (VObj versioned) = Ok Accepted.
Proof. split; vm_compute; reflexivity. Qed.

Lemma min_version_not_carried :
  ~ In "min_version" READ_BY_ENTRY /\
  plugin_entry acme_url acme (VObj (<["min_version" := VStr "1.2.0"]> ∅))
  = plugin_entry acme_url acme (VObj ∅).
Proof.
  assert (Hk : ~ In "min_version" READ_BY_ENTRY).
  { cbn. intros H. repeat destruct H as [H | H]; try discriminate H. exact H. }
  exact (conj Hk (entry_ignores_other_keys acme_url acme ∅ "min_version" _ Hk)).
Defined.

Lemma down_aborts :
  answered down init (search_options down) (Reply 503 (Text "Service Unavailable")) /\
  503%Z <> 200%Z /\
  buildRegistry down init = (Throw (api_error 503), searched down init) /\
  sent (searched down init) = (sent init ++ [search_options down])%list /\
  fs_calls (searched down init) = fs_calls init /\
  fst (main down init) = Some 1%Z.
Proof.
  assert (Hnet : answered down init (search_options down)
                   (Reply 503 (Text "Service Unavailable"))).
  { split; [vm_compute; reflexivity | reflexivity]. }
  assert (Hstatus : 503%Z <> 200%Z) by discriminate.
  exact (conj Hnet (conj Hstatus (listing_refused_aborts down init _ _ Hnet Hstatus))).
Defined.

Example down_message :
  message (api_error 503) = "GitHub API error: 503".
Proof. vm_compute. reflexivity. Qed.

Lemma offline_aborts :
  answered offline init (search_options offline)
    (Failure (Error "getaddrinfo ENOTFOUND api.github.com")) /\
  buildRegistry offline init
  = (Throw (Error "getaddrinfo ENOTFOUND api.github.com"), searched offline init) /\
  sent (searched offline init) = (sent init ++ [search_options offline])%list /\
  fs_calls (searched offline init) = fs_calls init /\
  fst (main offline init) = Some 1%Z.
Proof.
  assert (Hnet : answered offline init (search_options offline)
                   (Failure (Error "getaddrinfo ENOTFOUND api.github.com"))).
  { split; [vm_compute; reflexivity | reflexivity]. }
  exact (conj Hnet (listing_unreachable_aborts offline init _ Hnet)).
Defined.

Lemma null_listing_throws :
  answered null_listing init (search_options null_listing) (Reply 200 (Json VNull)) /\
  nullish (decode (Json VNull)) = true /\
  buildRegistry null_listing init
  = (Throw (null_read (decode (Json VNull)) "total_count"),
     searched null_listing init) /\
  exn_name (null_read (decode (Json VNull)) "total_count") = "TypeError" /\
  sent (searched null_listing init) = (sent init ++ [search_options null_listing])%list /\
  fs_calls (searched null_listing init) = fs_calls init /\
  fst (main null_listing init) = Some 1%Z.
Proof.
  assert (Hnet : answered null_listing init (search_options null_listing)
                   (Reply 200 (Json VNull))).
  { split; [vm_compute; reflexivity | reflexivity]. }
  assert (Hnull : nullish (decode (Json VNull)) = true) by reflexivity.
  exact (conj Hnet (conj Hnull (null_listing_aborts null_listing init _ Hnet Hnull))).
Defined.

Example null_listing_message :
  message (null_read VNull "total_count")
  = "Cannot read properties of null (reading 'total_count')".
Proof. vm_compute. reflexivity. Qed.

Lemma html_listing_empty :
  answered html_listing init (search_options html_listing)
    (Reply 200 (Text "<html>rate limited</html>")) /\
  nullish (decode (Text "<html>rate limited</html>")) = false /\
  to_string html_listing
    (get (decode (Text "<html>rate limited</html>")) "total_count") = Ok "undefined" /\
  truthy (get (decode (Text "<html>rate limited</html>")) "items") = false /\
  no_fault html_listing /\
  exists w',
    buildRegistry html_listing init = (Ok (registry_of html_listing []), w') /\
    sent w' = (sent init ++ [search_options html_listing])%list /\
    In (WriteFileSync (OUTPUT_PATH html_listing) (registry_of html_listing []))
       (fs_calls w') /\
    fst (main html_listing init) = Some 0%Z.
Proof.
  assert (Hnet : answered html_listing init (search_options html_listing)
                   (Reply 200 (Text "<html>rate limited</html>"))).
  { split; [vm_compute; reflexivity | reflexivity]. }
  assert (Hdata : nullish (decode (Text "<html>rate limited</html>")) = false)
    by reflexivity.
  assert (Hshown : to_string html_listing
                     (get (decode (Text "<html>rate limited</html>")) "total_count")
                   = Ok "undefined") by reflexivity.
  assert (Hitems : truthy (get (decode (Text "<html>rate limited</html>")) "items")
                   = false) by reflexivity.
  assert (Hno : no_fault html_listing) by (intros c; reflexivity).
  exact (conj Hnet (conj Hdata (conj Hshown (conj Hitems (conj Hno
           (listing_without_items_writes_empty html_listing init _ _
              Hnet Hdata Hshown Hitems Hno)))))).
Defined.

(** The script announces what it read of the page it could not parse. *)
Example html_listing_announces :
  console (snd (searchRepos html_listing init))
  = [ "Searching GitHub for repos with topic: audion-plugins";
      "Found undefined repos" ].
Proof. vm_compute. reflexivity. Qed.

Lemma odd_listing_throws :
  answered odd_listing init (search_options odd_listing)
    (Reply 200 (Json (obj [ ("total_count", VNum 1); ("items", VNum 1) ]))) /\
  to_string odd_listing
    (get (decode (Json (obj [ ("total_count", VNum 1); ("items", VNum 1) ])))
         "total_count") = Ok "1" /\
  truthy (get (decode (Json (obj [ ("total_count", VNum 1); ("items", VNum 1) ])))
              "items") = true /\
  iterable (get (decode (Json (obj [ ("total_count", VNum 1); ("items", VNum 1) ])))
                "items") = false /\
  buildRegistry odd_listing init = (Throw not_iterable, found odd_listing "1" init) /\
  sent (found odd_listing "1" init) = (sent init ++ [search_options odd_listing])%list /\
  fs_calls (found odd_listing "1" init) = fs_calls init /\
  fst (main odd_listing init) = Some 1%Z.
Proof.
  assert (Hnet : answered odd_listing init (search_options odd_listing)
                   (Reply 200 (Json (obj [ ("total_count", VNum 1);
                                           ("items", VNum 1) ])))).
  { split; [vm_compute; reflexivity | reflexivity]. }
  assert (Hshown :
            to_string odd_listing
              (get (decode (Json (obj [ ("total_count", VNum 1);
                                        ("items", VNum 1) ]))) "total_count")
            = Ok "1") by (vm_compute; reflexivity).
  assert (Htruthy :
            truthy (get (decode (Json (obj [ ("total_count", VNum 1);
                                             ("items", VNum 1) ]))) "items") = true)
    by (vm_compute; reflexivity).
  assert (Hiter :
            iterable (get (decode (Json (obj [ ("total_count", VNum 1);
                                               ("items", VNum 1) ]))) "items") = false)
    by (vm_compute; reflexivity).
  exact (conj Hnet (conj Hshown (conj Htruthy (conj Hiter
           (items_not_iterable_aborts odd_listing init _ _
              Hnet Hshown Htruthy Hiter))))).
Defined.

Lemma holed_is_responsive : responsive holed.
Proof.
  intros before o. unfold holed, host_of. cbn [net].
  destruct (is_search o); discriminate.
Defined.

Lemma holed_aborts :
  answered holed init (search_options holed) (Reply 200 (listing 2 [ acme; VNull ])) /\
  get (decode (listing 2 [ acme; VNull ])) "items" = VArr ([ acme ] ++ VNull :: []) /\
  to_string holed (get (decode (listing 2 [ acme; VNull ])) "total_count") = Ok "2" /\
  announce holed VNull = Throw (null_read VNull "full_name") /\
  (forall registry w', buildRegistry holed init <> (Ok registry, w')) /\
  fs_calls (snd (buildRegistry holed init)) = fs_calls init /\
  exists w',
    buildRegistry holed init = (Throw (null_read VNull "full_name"), w') /\
    sent w' = (sent init ++ search_options holed :: requests holed [ acme ])%list /\
    fst (main holed init) = Some 1%Z.
Proof.
  assert (Hnet : answered holed init (search_options holed)
                   (Reply 200 (listing 2 [ acme; VNull ]))).
  { split; [vm_compute; reflexivity | reflexivity]. }
  assert (Hitems : get (decode (listing 2 [ acme; VNull ])) "items"
                   = VArr ([ acme ] ++ VNull :: [])) by reflexivity.
  assert (Hshown : to_string holed
                     (get (decode (listing 2 [ acme; VNull ])) "total_count")
                   = Ok "2") by (vm_compute; reflexivity).
  assert (Hthrow : announce holed VNull = Throw (null_read VNull "full_name"))
    by reflexivity.
  assert (Hall : Forall (announceable holed) [ acme ]).
  { constructor; [exists "acme/my-plugin"; vm_compute; reflexivity | constructor]. }
  pose proof (bad_item_fails_build holed init _ [ acme ] VNull [] _ _
                Hnet Hitems Hshown Hthrow) as (Hnever & Hcalls & Hthrown).
  exact (conj Hnet (conj Hitems (conj Hshown (conj Hthrow (conj Hnever (conj Hcalls
           (Hthrown holed_is_responsive Hall))))))).
Defined.

(** [acme]'s manifest was accepted, and is lost with the build. *)
Example holed_loses_acme :
  fst (process_repo holed [] acme (snd (searchRepos holed init)))
  = Ok [ plugin_entry acme_url acme acme_manifest ] /\
  fst (buildRegistry holed init)
  = Throw (TypeError "Cannot read properties of null (reading 'full_name')") /\
  fst (main holed init) = Some 1%Z /\
  fs_calls (snd (buildRegistry holed init)) = [].
Proof. repeat split; vm_compute; reflexivity. Qed.

Lemma wrong_is_skipped :
  asked wrong acme init "acme/my-plugin" acme_request (Reply 200 (Json mistyped)) /\
  truthy (decode (Json mistyped)) = true /\
  validateManifest wrong (decode (Json mistyped))
  = Ok (Rejected (InvalidType "native")) /\
  valid (Rejected (InvalidType "native")) = false /\
  process_repo wrong [] acme init
  = (Ok [], skipped "acme/my-plugin" acme_request
              (invalid_line (Rejected (InvalidType "native"))) init).
Proof.
  assert (Hasked : asked wrong acme init "acme/my-plugin" acme_request
                     (Reply 200 (Json mistyped))).
  { repeat split; vm_compute; reflexivity. }
  assert (Htruthy : truthy (decode (Json mistyped)) = true) by reflexivity.
  assert (Hv : validateManifest wrong (decode (Json mistyped))
               = Ok (Rejected (InvalidType "native"))) by (vm_compute; reflexivity).
  assert (Hvalid : valid (Rejected (InvalidType "native")) = false) by reflexivity.
  exact (conj Hasked (conj Htruthy (conj Hv (conj Hvalid
           (rejected_manifest_is_skipped wrong [] acme init _ _ _ _
              Hasked Htruthy Hv Hvalid))))).
Defined.

Example wrong_line :
  invalid_line (Rejected (InvalidType "native"))
  = "  ❌ Invalid manifest: Invalid type: native".
Proof. vm_compute. reflexivity. Qed.

Lemma garbled_is_invalid_json :
  asked garbled acme init "acme/my-plugin" acme_request
    (Reply 200 (Text "name: My Plugin")) /\
  truthy (decode (Text "name: My Plugin")) = true /\
  mapping_like (decode (Text "name: My Plugin")) = false /\
  process_repo garbled [] acme init
  = (Ok [], skipped "acme/my-plugin" acme_request
              "  ❌ Invalid manifest: Invalid JSON" init).
Proof.
  assert (Hasked : asked garbled acme init "acme/my-plugin" acme_request
                     (Reply 200 (Text "name: My Plugin"))).
  { repeat split; vm_compute; reflexivity. }
  assert (Htruthy : truthy (decode (Text "name: My Plugin")) = true) by reflexivity.
  assert (Hlike : mapping_like (decode (Text "name: My Plugin")) = false)
    by reflexivity.
  exact (conj Hasked (conj Htruthy (conj Hlike
           (non_object_manifest_is_invalid_json garbled [] acme init _ _ _
              Hasked Htruthy Hlike)))).
Defined.

Lemma acme_is_appended :
  asked steady acme init "acme/my-plugin" acme_request
    (Reply 200 (Json acme_manifest)) /\
  validateManifest steady (decode (Json acme_manifest)) = Ok Accepted /\
  to_string steady (get (decode (Json acme_manifest)) "name") = Ok "My Plugin" /\
  process_repo steady [] acme init
  = (Ok ([] ++ [ plugin_entry (raw_url (path acme_request)) acme
                   (decode (Json acme_manifest)) ])%list,
     skipped "acme/my-plugin" acme_request (valid_line "My Plugin") init).
Proof.
  assert (Hasked : asked steady acme init "acme/my-plugin" acme_request
                     (Reply 200 (Json acme_manifest))).
  { repeat split; vm_compute; reflexivity. }
  assert (Hok : validateManifest steady (decode (Json acme_manifest)) = Ok Accepted)
    by (vm_compute; reflexivity).
  assert (Hname : to_string steady (get (decode (Json acme_manifest)) "name")
                  = Ok "My Plugin") by (vm_compute; reflexivity).
  exact (conj Hasked (conj Hok (conj Hname
           (accepted_manifest_appends steady [] acme init _ _ _ _
              Hasked Hok Hname)))).
Defined.

Example acme_url_is_raw : raw_url (path acme_request) = acme_url.
Proof. vm_compute. reflexivity. Qed.

Lemma obscure_is_caught :
  asked obscure acme init "acme/my-plugin" acme_request
    (Reply 200 (Json opaque_type)) /\
  truthy (decode (Json opaque_type)) = true /\
  validateManifest obscure (decode (Json opaque_type)) = Throw unconvertible /\
  unconvertible = unconvertible /\
  process_repo obscure [] acme init
  = (Ok [], skipped "acme/my-plugin" acme_request (error_line unconvertible) init).
Proof.
  assert (Hasked : asked obscure acme init "acme/my-plugin" acme_request
                     (Reply 200 (Json opaque_type))).
  { repeat split; vm_compute; reflexivity. }
  assert (Htruthy : truthy (decode (Json opaque_type)) = true) by reflexivity.
  assert (Hthrow : validateManifest obscure (decode (Json opaque_type))
                   = Throw unconvertible) by (vm_compute; reflexivity).
  exact (conj Hasked (conj Htruthy (conj Hthrow
           (validator_throw_is_caught obscure [] acme init _ _ _ _
              Hasked Htruthy Hthrow)))).
Defined.

Example obscure_line :
  error_line unconvertible = "  ❌ Error: Cannot convert object to primitive value".
Proof. vm_compute. reflexivity. Qed.

Lemma untitled_is_caught :
  asked untitled acme init "acme/my-plugin" acme_request
    (Reply 200 (Json opaque_name)) /\
  validateManifest untitled (decode (Json opaque_name)) = Ok Accepted /\
  to_string untitled (get (decode (Json opaque_name)) "name") = Throw unconvertible /\
  process_repo untitled [] acme init
  = (Ok [], skipped "acme/my-plugin" acme_request (error_line unconvertible) init).
Proof.
  assert (Hasked : asked untitled acme init "acme/my-plugin" acme_request
                     (Reply 200 (Json opaque_name))).
  { repeat split; vm_compute; reflexivity. }
  assert (Hok : validateManifest untitled (decode (Json opaque_name)) = Ok Accepted)
    by (vm_compute; reflexivity).
  assert (Hname : to_string untitled (get (decode (Json opaque_name)) "name")
                  = Throw unconvertible) by (vm_compute; reflexivity).
  exact (conj Hasked (conj Hok (conj Hname
           (unprintable_name_is_caught untitled [] acme init _ _ _ _
              Hasked Hok Hname)))).
Defined.

Lemma branchless_is_skipped :
  announce steady branchless = Ok "acme/my-plugin" /\
  (repo_request steady branchless = Throw unconvertible
   \/ (exists o, repo_request steady branchless = Ok o
                 /\ refusal o = Some unconvertible)) /\
  process_repo steady [] branchless init
  = (Ok [], unsent "acme/my-plugin" (error_line unconvertible) init) /\
  sent (unsent "acme/my-plugin" (error_line unconvertible) init) = sent init.
Proof.
  assert (Hshown : announce steady branchless = Ok "acme/my-plugin")
    by (vm_compute; reflexivity).
  assert (Hreq : repo_request steady branchless = Throw unconvertible
                 \/ (exists o, repo_request steady branchless = Ok o
                               /\ refusal o = Some unconvertible)).
  { left. vm_compute. reflexivity. }
  exact (conj Hshown (conj Hreq
           (unsendable_request_is_skipped steady [] branchless init _ _ Hshown Hreq))).
Defined.

(** A branch with a space in its name makes a path that [https.request]
    refuses. *)
Example spaced_is_refused :
  repo_request steady spaced
  = Ok (manifest_options "/acme/my-plugin/my branch/plugin.json") /\
  refusal (manifest_options "/acme/my-plugin/my branch/plugin.json")
  = Some (TypeError "Request path contains unescaped characters") /\
  process_repo steady [] spaced init
  = (Ok [], unsent "acme/my-plugin"
              "  ❌ Error: Request path contains unescaped characters" init).
Proof. repeat split; vm_compute; reflexivity. Qed.

Lemma steady_order :
  process_repos steady [] [ ghost; acme ] init
  = (Ok [ plugin_entry acme_url acme acme_manifest ],
     snd (process_repos steady [] [ ghost; acme ] init)) /\
  exists kept added,
    [ plugin_entry acme_url acme acme_manifest ] = ([] ++ added)%list /\
    sublist kept [ ghost; acme ] /\
    Forall2 (pushed_for steady) kept added.
Proof.
  assert (Hloop : process_repos steady [] [ ghost; acme ] init
                  = (Ok [ plugin_entry acme_url acme acme_manifest ],
                     snd (process_repos steady [] [ ghost; acme ] init)))
    by (vm_compute; reflexivity).
  exact (conj Hloop (entries_follow_discovery_order steady _ _ _ _ _ Hloop)).
Defined.

Lemma steady_requests :
  buildRegistry steady init = (Ok steady_registry, snd (buildRegistry steady init)) /\
  exists repos w0 items,
    searchRepos steady init = (Ok repos, w0) /\
    for_of repos w0 = (Ok items, w0) /\
    sent (snd (buildRegistry steady init))
    = (sent init ++ search_options steady :: requests steady items)%list /\
    List.length (requests steady items) <= List.length items /\
    Forall (fun o => hostname o = "raw.githubusercontent.com"
                     /\ headers o = [ ("User-Agent", Some "Audion-Registry-Builder") ])
           (requests steady items).
Proof.
  assert (Hrun : buildRegistry steady init
                 = (Ok steady_registry, snd (buildRegistry steady init)))
    by (vm_compute; reflexivity).
  exact (conj Hrun (build_requests steady init _ _ Hrun)).
Defined.

Example steady_sent :
  sent (snd (buildRegistry steady init))
  = [ search_options steady; ghost_request; acme_request ] /\
  requests steady [ ghost; branchless; spaced; nameless; VNull; acme ]
  = [ ghost_request; acme_request ].
Proof. split; vm_compute; reflexivity. Qed.

Lemma steady_entries_auto_discovered :
  buildRegistry steady init = (Ok steady_registry, snd (buildRegistry steady init)) /\
  Forall auto_discovered (Registry.plugins steady_registry).
Proof.
  assert (Hrun : buildRegistry steady init
                 = (Ok steady_registry, snd (buildRegistry steady init)))
    by (vm_compute; reflexivity).
  exact (conj Hrun (registry_entries_auto_discovered steady init _ _ Hrun)).
Defined.

Lemma steady_items_announceable : Forall (announceable steady) [ ghost; acme ].
Proof.
  constructor; [exists "ghost/no-manifest"; vm_compute; reflexivity |].
  constructor; [exists "acme/my-plugin"; vm_compute; reflexivity | constructor].
Defined.

Lemma steady_build_returns :
  answered steady init (search_options steady)
    (Reply 200 (listing 2 [ ghost; acme ])) /\
  get (decode (listing 2 [ ghost; acme ])) "items" = VArr [ ghost; acme ] /\
  to_string steady (get (decode (listing 2 [ ghost; acme ])) "total_count") = Ok "2" /\
  Forall (announceable steady) [ ghost; acme ] /\
  responsive steady /\
  no_fault steady /\
  exists plugins w',
    buildRegistry steady init = (Ok (registry_of steady plugins), w') /\
    In (WriteFileSync (OUTPUT_PATH steady) (registry_of steady plugins)) (fs_calls w') /\
    sent w'
    = (sent init ++ search_options steady :: requests steady [ ghost; acme ])%list /\
    fst (main steady init) = Some 0%Z.
Proof.
  assert (Hnet : answered steady init (search_options steady)
                   (Reply 200 (listing 2 [ ghost; acme ]))).
  { split; [vm_compute; reflexivity | reflexivity]. }
  assert (Hitems : get (decode (listing 2 [ ghost; acme ])) "items"
                   = VArr [ ghost; acme ]) by reflexivity.
  assert (Hshown : to_string steady
                     (get (decode (listing 2 [ ghost; acme ])) "total_count")
                   = Ok "2") by (vm_compute; reflexivity).
  assert (Hno : no_fault steady) by (intros c; reflexivity).
  exact (conj Hnet (conj Hitems (conj Hshown (conj steady_items_announceable
           (conj steady_is_responsive (conj Hno
              (build_tolerates_items steady init _ _ _ Hnet Hitems Hshown
                 steady_items_announceable steady_is_responsive Hno))))))).
Defined.

Lemma read_only_fails :
  answered read_only init (search_options read_only)
    (Reply 200 (listing 2 [ ghost; acme ])) /\
  get (decode (listing 2 [ ghost; acme ])) "items" = VArr [ ghost; acme ] /\
  to_string read_only (get (decode (listing 2 [ ghost; acme ])) "total_count")
  = Ok "2" /\
  Forall (announceable read_only) [ ghost; acme ] /\
  responsive read_only /\
  fs_fault read_only (MkdirSync (OUTPUT_DIR read_only)) = None /\
  (forall doc, fs_fault read_only (WriteFileSync (OUTPUT_PATH read_only) doc)
               = Some (Error "EACCES: permission denied")) /\
  exists plugins w1 w',
    process_repos read_only [] [ ghost; acme ] (found read_only "2" init)
    = (Ok plugins, w1) /\
    buildRegistry read_only init = (Throw (Error "EACCES: permission denied"), w') /\
    console w' = console w1 /\
    sent w'
    = (sent init ++ search_options read_only :: requests read_only [ ghost; acme ])%list /\
    List.last (fs_calls w') (ExistsSync "")
    = WriteFileSync (OUTPUT_PATH read_only) (registry_of read_only plugins) /\
    fst (main read_only init) = Some 1%Z.
Proof.
  assert (Hnet : answered read_only init (search_options read_only)
                   (Reply 200 (listing 2 [ ghost; acme ]))).
  { split; [vm_compute; reflexivity | reflexivity]. }
  assert (Hitems : get (decode (listing 2 [ ghost; acme ])) "items"
                   = VArr [ ghost; acme ]) by reflexivity.
  assert (Hshown : to_string read_only
                     (get (decode (listing 2 [ ghost; acme ])) "total_count")
                   = Ok "2") by (vm_compute; reflexivity).
  assert (Hall : Forall (announceable read_only) [ ghost; acme ]).
  { constructor; [exists "ghost/no-manifest"; vm_compute; reflexivity |].
    constructor; [exists "acme/my-plugin"; vm_compute; reflexivity | constructor]. }
  assert (Hresp : responsive read_only) by exact steady_is_responsive.
  assert (Hmk : fs_fault read_only (MkdirSync (OUTPUT_DIR read_only)) = None)
    by reflexivity.
  assert (Hwr : forall doc,
             fs_fault read_only (WriteFileSync (OUTPUT_PATH read_only) doc)
             = Some (Error "EACCES: permission denied")) by reflexivity.
  exact (conj Hnet (conj Hitems (conj Hshown (conj Hall (conj Hresp (conj Hmk (conj Hwr
           (write_failure_is_fatal read_only init _ _ _ _
              Hnet Hitems Hshown Hall Hresp Hmk Hwr)))))))).
Defined.

(** A listing whose [items] are a string is iterated character by
    character. *)
Example for_of_code_points :
  fst (for_of (VStr "aé😀") init) = Ok [ VStr "a"; VStr "é"; VStr "😀" ] /\
  announce steady (VStr "a") = Ok "undefined".
Proof. split; vm_compute; reflexivity. Qed.

Example read_only_has_token :
  refusal (search_options read_only) = None /\
  headers (search_options read_only)
  = [ ("User-Agent", Some "Audion-Registry-Builder");
      ("Accept", Some "application/vnd.github.v3+json");
      ("Authorization", Some "token t0ken") ].
Proof. split; vm_compute; reflexivity. Qed.

Lemma anonymous_cannot_search :
  (GITHUB_TOKEN anonymous = None \/ GITHUB_TOKEN anonymous = Some "") /\
  let err := TypeError ("Invalid value " ++ dq ++ "undefined" ++ dq
                        ++ " for header " ++ dq ++ "Authorization" ++ dq) in
  buildRegistry anonymous init = (Throw err, with_line init searching_line) /\
  sent (with_line init searching_line) = sent init /\
  fs_calls (with_line init searching_line) = fs_calls init /\
  fst (main anonymous init) = Some 1%Z.
Proof.
  assert (Htoken : GITHUB_TOKEN anonymous = None \/ GITHUB_TOKEN anonymous = Some "")
    by (left; reflexivity).
  exact (conj Htoken (token_required anonymous init Htoken)).
Defined.

Lemma stalled_build_waits :
  answered stalled init (search_options stalled)
    (Reply 200 (listing 2 [ ghost; acme ])) /\
  get (decode (listing 2 [ ghost; acme ])) "items" = VArr ([] ++ ghost :: [ acme ]) /\
  to_string stalled (get (decode (listing 2 [ ghost; acme ])) "total_count")
  = Ok "2" /\
  process_repos stalled [] [] (found stalled "2" init)
  = (Ok [], found stalled "2" init) /\
  asked stalled ghost (found stalled "2" init) "ghost/no-manifest" ghost_request
    Stalled /\
  buildRegistry stalled init
  = (Pending, waiting "ghost/no-manifest" ghost_request (found stalled "2" init)) /\
  main stalled init
  = (None, waiting "ghost/no-manifest" ghost_request (found stalled "2" init)) /\
  sent (waiting "ghost/no-manifest" ghost_request (found stalled "2" init))
  = (sent init ++ search_options stalled :: requests stalled [] ++ [ ghost_request ])%list /\
  fs_calls (waiting "ghost/no-manifest" ghost_request (found stalled "2" init))
  = fs_calls init.
Proof.
  assert (Hnet : answered stalled init (search_options stalled)
                   (Reply 200 (listing 2 [ ghost; acme ]))).
  { split; [vm_compute; reflexivity | reflexivity]. }
  assert (Hitems : get (decode (listing 2 [ ghost; acme ])) "items"
                   = VArr ([] ++ ghost :: [ acme ])) by reflexivity.
  assert (Hshown : to_string stalled
                     (get (decode (listing 2 [ ghost; acme ])) "total_count")
                   = Ok "2") by (vm_compute; reflexivity).
  assert (Hbefore : process_repos stalled [] [] (found stalled "2" init)
                    = (Ok [], found stalled "2" init)) by reflexivity.
  assert (Hasked : asked stalled ghost (found stalled "2" init) "ghost/no-manifest"
                     ghost_request Stalled).
  { repeat split; vm_compute; reflexivity. }
  exact (conj Hnet (conj Hitems (conj Hshown (conj Hbefore (conj Hasked
           (stalled_request_stalls_build stalled init _ [] ghost [ acme ] _ _ _ _ _
              Hnet Hitems Hshown Hbefore Hasked)))))).
Defined.

End OnMoreExamples.
